(** * PersonalizationService: engagement scoring, churn risk, segments,
      preferences, profile rebuild, subject lines and content ordering.

    Shallow embedding of [backend/src/services/personalization_service.py]
    together with the parts of [backend/src/models/subscriber.py] it reads
    and writes.

    Modelling conventions
    - The SQL tables are lists of rows in row order; a query keeps the rows
      that satisfy its filter, in that order ([.all()]), [.first()] is the
      head and [.count()] the length of that list.  SQLite (the configured
      backend) does not enforce the foreign keys unless asked to, and the
      application never asks, so no referential check is modelled.
    - A naive [datetime] is an integer number of microseconds since
      [datetime.min]; [timedelta.days] is the floor of a difference divided
      by one day.  The successive readings of [datetime.utcnow()] inside one
      call are identified with a single instant [now].
    - Python numbers ([int] mixed with [float]) are exact rationals [Q]:
      rounding of binary floating point is not modelled.  Python's two
      argument [min(a, b)] is [Qmin a b]: [a] unless [b < a].
    - [str] is [string] (a sequence of bytes, UTF-8 for the non ASCII
      prefixes).  [Py.lower] is [str.lower()] on ASCII text; the lowering
      of a content summary, which is free text, is a parameter of the
      subject line function, so that what is proved of it holds of the
      Unicode lowering as well.
    - A value computed as [(count / total) * 100] is that exact rational;
      sums over several such values are stated on the counts, where floats
      and rationals agree, and not on the values.
    - A lookup by id binds the id as an SQLite integer.  Binding raises
      [OverflowError] outside the signed 64-bit range
      ([Facts.sqlite_integer]) and that error is not modelled: the model
      describes the calls whose ids are in the range.
    - A [dict] is an association list with unique keys in insertion order,
      as iteration order is observable through [max] and
      [Counter.most_common].
    - The JSON text columns of a profile hold the value that
      [json.loads (json.dumps v)] gives back, that is [v] itself for a
      mapping from strings to numbers and for a list of strings. *)

From Stdlib Require Import ZArith QArith Qminmax List String Ascii Bool.
From Stdlib Require Import Lia Lqa Permutation Sorted DecimalString.
From Stdlib Require Import Qround.
Import ListNotations.

Open Scope Z_scope.

(* ===================================================================== *)
(** ** Python values used by the service                                  *)
(* ===================================================================== *)

Module Py.

(** *** datetime and timedelta *)

Definition datetime := Z.

Definition usec_per_hour : Z := 3600000000.
Definition usec_per_day : Z := 24 * usec_per_hour.

(** [timedelta(days=d)] *)
Definition timedelta (days : Z) : Z := days * usec_per_day.

(** [(a - b).days] for the difference [delta] of two datetimes *)
Definition days (delta : Z) : Z := delta / usec_per_day.

(** [t.hour] *)
Definition hour (t : datetime) : Z := (t / usec_per_hour) mod 24.

(** *** Truthiness of an optional string column *)

Definition truthy (s : option string) : bool :=
  match s with
  | Some EmptyString => false
  | Some _ => true
  | None => false
  end.

(** *** Strings *)

Definition lower_ascii (c : ascii) : ascii :=
  let n := nat_of_ascii c in
  if ((65 <=? n) && (n <=? 90))%nat then ascii_of_nat (n + 32) else c.

Fixpoint lower (s : string) : string :=
  match s with
  | EmptyString => EmptyString
  | String c s' => String (lower_ascii c) (lower s')
  end.

(** [needle in hay] on strings *)
Fixpoint contains (needle hay : string) : bool :=
  if String.prefix needle hay then true
  else match hay with
       | EmptyString => false
       | String _ hay' => contains needle hay'
       end.

(** [x in l] on a list of strings *)
Definition mem (x : string) (l : list string) : bool :=
  existsb (String.eqb x) l.

(** [f"{n:02d}"] for [0 <= n] *)
Definition fmt_02d (n : Z) : string :=
  let s := NilZero.string_of_uint (N.to_uint (Z.to_N n)) in
  if (String.length s <? 2)%nat then String "0" s else s.

(** *** Numbers *)

Definition of_nat (n : nat) : Q := inject_Z (Z.of_nat n).

Definition Qltb (x y : Q) : bool :=
  match (x ?= y)%Q with Lt => true | _ => false end.

Definition Qgeb (x y : Q) : bool := Qle_bool y x.

Definition sum (l : list Z) : Z := fold_left Z.add l 0.

(** *** [max(iterable, key=...)]: the first element whose key is not
    exceeded by any other; [None] stands for the [ValueError] on an
    empty iterable. *)

Section Max.
Context {A K : Type} (ltb : K -> K -> bool) (key : A -> K).

Fixpoint max_from (best : A) (l : list A) : A :=
  match l with
  | [] => best
  | x :: l' => max_from (if ltb (key best) (key x) then x else best) l'
  end.

Definition max_by (l : list A) : option A :=
  match l with
  | [] => None
  | x :: l' => Some (max_from x l')
  end.
End Max.

(** *** dict *)

Section Dict.
Context {K V : Type} (eqb : K -> K -> bool).

Definition dict := list (K * V).

Fixpoint get (d : dict) (k : K) : option V :=
  match d with
  | [] => None
  | (k', v) :: d' => if eqb k' k then Some v else get d' k
  end.

Definition get_default (d : dict) (k : K) (default : V) : V :=
  match get d k with
  | Some v => v
  | None => default
  end.

(** [d[k] = f(d[k])] on a [defaultdict] whose missing entries read
    [default]: an existing key keeps its position, a new key goes last. *)
Fixpoint update (f : V -> V) (default : V) (k : K) (d : dict) : dict :=
  match d with
  | [] => [(k, f default)]
  | (k', v) :: d' =>
      if eqb k' k then (k', f v) :: d' else (k', v) :: update f default k d'
  end.

Definition keys (d : dict) : list K := map fst d.
Definition values (d : dict) : list V := map snd d.
End Dict.

(** [d[k] += 1] on a [defaultdict(int)], and [Counter(l)] *)
Definition incr {K} (eqb : K -> K -> bool) (d : list (K * nat)) (k : K) :=
  update eqb S 0%nat k d.

Definition Counter {K} (eqb : K -> K -> bool) (l : list K) : list (K * nat) :=
  fold_left (incr eqb) l [].

(** [c.most_common(1)]: [heapq.nlargest(1, items, key=count)], which is
    [max(items, key=count)] and so the first item of highest count. *)
Definition most_common_1 {K} (c : list (K * nat)) : list (K * nat) :=
  match max_by Nat.ltb snd c with
  | None => []
  | Some kv => [kv]
  end.

(** *** [sorted(l, key=key, reverse=True)]: a stable sort, descending in
    the key; elements of equal key keep their order. *)

Section Sorted.
Context {A : Type} (key : A -> Q).

Fixpoint insert_desc (x : A) (l : list A) : list A :=
  match l with
  | [] => [x]
  | y :: l' =>
      if Qle_bool (key y) (key x) then x :: y :: l'
      else y :: insert_desc x l'
  end.

Definition sorted_reverse (l : list A) : list A :=
  fold_right insert_desc [] l.
End Sorted.

(** *** [round(x, ndigits)]: to the nearest multiple of [10^-ndigits], a
    tie going to the even neighbour. *)

Definition round_half_even (x : Q) : Z :=
  let f := Qfloor x in
  match (x - inject_Z f ?= 1 # 2)%Q with
  | Lt => f
  | Gt => f + 1
  | Eq => if Z.even f then f else f + 1
  end.

Definition round (x : Q) (ndigits : nat) : Q :=
  let scale := inject_Z (10 ^ Z.of_nat ndigits) in
  (inject_Z (round_half_even (x * scale)) / scale)%Q.

(** [range(n)] *)
Definition range (n : nat) : list Z := map Z.of_nat (seq 0 n).

(** *** The calendar of a [datetime] *)

(** [t.weekday()]: Monday is 0; [datetime.min] is a Monday. *)
Definition weekday (t : datetime) : Z := (t / usec_per_day) mod 7.

(** Year, month and day of the day number [n] counted from
    [0001-01-01] (proleptic Gregorian calendar). *)
Definition civil (n : Z) : Z * Z * Z :=
  let z := n + 306 in
  let era := z / 146097 in
  let doe := z mod 146097 in
  let yoe := (doe - doe / 1460 + doe / 36524 - doe / 146096) / 365 in
  let doy := doe - (365 * yoe + yoe / 4 - yoe / 100) in
  let mp := (5 * doy + 2) / 153 in
  let d := doy - (153 * mp + 2) / 5 + 1 in
  let m := if mp <? 10 then mp + 3 else mp - 9 in
  let y := yoe + era * 400 + (if m <=? 2 then 1 else 0) in
  (y, m, d).

Definition decimal (n : Z) : string :=
  NilZero.string_of_uint (N.to_uint (Z.to_N n)).

Definition zero_pad (width : nat) (s : string) : string :=
  Nat.iter (width - String.length s) (String "0") s.

(** [t.strftime('%Y-%m-%d')], the year on four digits as it is for the
    years 1000 to 9999 *)
Definition strftime_ymd (t : datetime) : string :=
  let '(y, m, d) := civil (t / usec_per_day) in
  (zero_pad 4 (decimal y) ++ "-" ++ zero_pad 2 (decimal m) ++ "-"
   ++ zero_pad 2 (decimal d))%string.

End Py.

(* ===================================================================== *)
(** ** models/subscriber.py: the rows the service reads and writes        *)
(* ===================================================================== *)

Record Subscriber := {
  id : Z;
  signup_date : Py.datetime
}.

Record EngagementEvent := {
  ev_subscriber_id : Z;
  event_type : string;
  content_section : option string;
  timestamp : Py.datetime
}.

Record SubscriberProfile := {
  subscriber_id : Z;
  engagement_score : Q;
  content_preferences : list (string * Q);
  behavioral_segments : list string;
  churn_risk_score : Q;
  optimal_send_time : option string;
  last_updated : option Py.datetime
}.

(** A content item as the routes pass it: a JSON object, of which the
    service reads the keys [section_name] and [content_type]. *)
Record ContentItem := {
  section_name : option string;
  content_type : option string;
  title : string
}.

Record Database := {
  subscribers : list Subscriber;
  engagement_events : list EngagementEvent;
  subscriber_profiles : list SubscriberProfile
}.

(** [SubscriberProfile(subscriber_id=...)]: the column defaults *)
Definition new_profile (sid : Z) : SubscriberProfile :=
  {| subscriber_id := sid;
     engagement_score := 0;
     content_preferences := [];
     behavioral_segments := [];
     churn_risk_score := 0;
     optimal_send_time := None;
     last_updated := None |}.

(** [Subscriber.query.get(subscriber_id)] *)
Definition get_subscriber (db : Database) (sid : Z) : option Subscriber :=
  find (fun s => id s =? sid) (subscribers db).

(** [SubscriberProfile.query.filter_by(subscriber_id=...).first()] *)
Definition get_profile (db : Database) (sid : Z) : option SubscriberProfile :=
  find (fun p => subscriber_id p =? sid) (subscriber_profiles db).

Definition is_type (ty : string) (e : EngagementEvent) : bool :=
  String.eqb (event_type e) ty.


(* ===================================================================== *)
(** ** services/personalization_service.py                                *)
(* ===================================================================== *)

Module PersonalizationService.

(** *** calculate_engagement_score (lines 14-50) *)

Definition calculate_engagement_score
    (db : Database) (now : Py.datetime) (sid : Z) (days : Z) : Q :=
  let end_date := now in
  let start_date := end_date - Py.timedelta days in
  let events :=
    filter (fun e => (ev_subscriber_id e =? sid) && (start_date <=? timestamp e))
           (engagement_events db) in
  match events with
  | [] => 0%Q
  | _ :: _ =>
      let opens := List.length (filter (is_type "email_open") events) in
      let clicks := List.length (filter (is_type "link_click") events) in
      let content_views := List.length (filter (is_type "content_view") events) in
      let total_emails := Z.min days 30 in
      if total_emails =? 0 then 0%Q
      else
        let open_rate := Qmin (Py.of_nat opens / inject_Z total_emails) 1 in
        let click_rate :=
          if (0 <? opens)%nat
          then Qmin (Py.of_nat clicks / inject_Z total_emails) 1
          else 0%Q in
        let engagement_rate :=
          Qmin (Py.of_nat content_views / inject_Z total_emails) 1 in
        let engagement_score :=
          (open_rate * 30 + click_rate * 40 + engagement_rate * 30)%Q in
        Qmin engagement_score 100
  end.

(** *** analyze_content_preferences (lines 53-79) *)

Definition count_section
    (section_engagement : list (string * nat)) (event : EngagementEvent) :=
  if Py.truthy (content_section event)
  then match content_section event with
       | Some s => Py.incr String.eqb section_engagement s
       | None => section_engagement
       end
  else section_engagement.

Definition analyze_content_preferences
    (db : Database) (sid : Z) : list (string * Q) :=
  let events :=
    filter (fun e => ev_subscriber_id e =? sid) (engagement_events db) in
  match events with
  | [] => []
  | _ :: _ =>
      let total_events := List.length events in
      let section_engagement := fold_left count_section events [] in
      map (fun sc : string * nat =>
             let (section, count) := sc in
             (section, (Py.of_nat count / Py.of_nat total_events * 100)%Q))
          section_engagement
  end.

(** *** predict_churn_risk (lines 82-135) *)

(** [order_by(EngagementEvent.timestamp.desc()).first()]: a row of the
    latest timestamp. *)
Definition latest_event (events : list EngagementEvent) : option EngagementEvent :=
  Py.max_by Z.ltb timestamp events.

Definition risk_factors_of
    (days_since_last_engagement recent_events days_since_signup : Z) : list Z :=
  let risk_factors := [] in
  let risk_factors :=
    if 14 <? days_since_last_engagement
    then risk_factors ++ [Z.min (days_since_last_engagement * 2) 40]
    else risk_factors in
  let risk_factors :=
    if recent_events <? 2 then risk_factors ++ [30] else risk_factors in
  let risk_factors :=
    if (days_since_signup <=? 7) && (recent_events =? 0)
    then risk_factors ++ [50] else risk_factors in
  let risk_factors :=
    if (90 <? days_since_signup) && (recent_events <? 1)
    then risk_factors ++ [35] else risk_factors in
  risk_factors.

Definition predict_churn_risk
    (db : Database) (now : Py.datetime) (sid : Z) : Q :=
  match get_subscriber db sid with
  | None => 0%Q
  | Some subscriber =>
      let days_since_signup := Py.days (now - signup_date subscriber) in
      let recent_events :=
        Z.of_nat (List.length
          (filter (fun e => (ev_subscriber_id e =? sid)
                            && (now - Py.timedelta 14 <=? timestamp e))
                  (engagement_events db))) in
      let last_event :=
        latest_event
          (filter (fun e => ev_subscriber_id e =? sid) (engagement_events db)) in
      let days_since_last_engagement :=
        match last_event with
        | Some e => Py.days (now - timestamp e)
        | None => days_since_signup
        end in
      let risk_factors :=
        risk_factors_of days_since_last_engagement recent_events
                        days_since_signup in
      match risk_factors with
      | [] => 10%Q
      | _ :: _ => Qmin (inject_Z (Py.sum risk_factors)) 100
      end
  end.

(** *** determine_behavioral_segments (lines 138-175) *)

(** [max(preferences, key=preferences.get)]: the keys are scanned in
    insertion order and compared by their values ([preferences.get] of a
    key of the mapping is its value). *)
Definition top_preference_of (preferences : list (string * Q)) : option string :=
  Py.max_by Py.Qltb (fun k => Py.get_default String.eqb preferences k 0%Q)
            (Py.keys preferences).

Definition determine_behavioral_segments
    (db : Database) (now : Py.datetime) (sid : Z) : list string :=
  let engagement_score := calculate_engagement_score db now sid 30 in
  let churn_risk := predict_churn_risk db now sid in
  let preferences := analyze_content_preferences db sid in
  let segments : list string := [] in
  let segments :=
    if Py.Qgeb engagement_score 70 then segments ++ ["high_engagement"%string]
    else if Py.Qgeb engagement_score 40 then segments ++ ["medium_engagement"%string]
    else segments ++ ["low_engagement"%string] in
  let segments :=
    if Py.Qgeb churn_risk 70 then segments ++ ["high_churn_risk"%string]
    else if Py.Qgeb churn_risk 40 then segments ++ ["medium_churn_risk"%string]
    else segments ++ ["low_churn_risk"%string] in
  let segments :=
    match preferences with
    | [] => segments
    | _ :: _ =>
        match top_preference_of preferences with
        | None => segments
        | Some top_preference =>
            if Py.contains "stock_analysis" (Py.lower top_preference)
            then segments ++ ["stock_focused"%string]
            else if Py.contains "market" (Py.lower top_preference)
            then segments ++ ["market_focused"%string]
            else if Py.contains "news" (Py.lower top_preference)
            then segments ++ ["news_focused"%string]
            else segments
        end
    end in
  segments.

(** *** generate_personalized_subject_line (lines 178-211) *)

(** The prefixes are written byte for byte as the source file stores them.
    [str.lower()] follows the Unicode case tables, which are not modelled:
    the lowering of the summary is the parameter [lower] of the function,
    and [Py.lower] is what it does on ASCII text. *)
Definition generate_personalized_subject_line
    (lower : string -> string)
    (db : Database) (sid : Z) (content_summary base_subject : string) : string :=
  match get_subscriber db sid with
  | None => base_subject
  | Some _ =>
      match get_profile db sid with
      | None => base_subject
      | Some profile =>
          let segments := behavioral_segments profile in
          let personalized_subject := base_subject in
          let personalized_subject :=
            if Py.mem "high_engagement" segments
            then ("ðŸ”¥ " ++ base_subject)%string
            else if Py.mem "low_engagement" segments
            then ("Quick Read: " ++ base_subject)%string
            else personalized_subject in
          let personalized_subject :=
            if Py.mem "stock_focused" segments
               && Py.contains "stock" (lower content_summary)
            then ("ðŸ“ˆ Stock Alert: " ++ base_subject)%string
            else if Py.mem "market_focused" segments
                    && Py.contains "market" (lower content_summary)
            then ("ðŸ“Š Market Update: " ++ base_subject)%string
            else personalized_subject in
          let personalized_subject :=
            if Py.mem "high_churn_risk" segments
            then ("Don't Miss: " ++ personalized_subject)%string
            else personalized_subject in
          personalized_subject
      end
  end.

(** *** personalize_content_order (lines 214-241) *)

Definition item_get (field : option string) (default : string) : string :=
  match field with
  | Some s => s
  | None => default
  end.

Definition preference_score
    (preferences : list (string * Q)) (item : ContentItem) : Q :=
  let section := item_get (section_name item) "" in
  let content_type := item_get (content_type item) "" in
  let section_score := Py.get_default String.eqb preferences section 0%Q in
  let type_score := Py.get_default String.eqb preferences content_type 0%Q in
  (section_score + type_score)%Q.

Definition personalize_content_order
    (db : Database) (sid : Z) (content_items : list ContentItem)
    : list ContentItem :=
  match get_profile db sid with
  | None => content_items
  | Some profile =>
      let preferences := content_preferences profile in
      match preferences with
      | [] => content_items
      | _ :: _ =>
          Py.sorted_reverse (preference_score preferences) content_items
      end
  end.

(** *** update_subscriber_profile (lines 244-283) *)

(** The row of [sid] after the assignments of the function; a missing row
    is added at the end of the table ([db.session.add]). *)
Fixpoint upsert (row : SubscriberProfile) (table : list SubscriberProfile)
    : list SubscriberProfile :=
  match table with
  | [] => [row]
  | p :: table' =>
      if subscriber_id p =? subscriber_id row then row :: table'
      else p :: upsert row table'
  end.

Definition most_common_hour (hours : list Z) : option Z :=
  match Py.most_common_1 (Py.Counter Z.eqb hours) with
  | [] => None
  | (h, _) :: _ => Some h
  end.

Definition compute_optimal_send_time
    (db : Database) (now : Py.datetime) (sid : Z) : string :=
  let recent_opens :=
    filter (fun e => (ev_subscriber_id e =? sid)
                     && is_type "email_open" e
                     && (now - Py.timedelta 30 <=? timestamp e))
           (engagement_events db) in
  match recent_opens with
  | [] => "09:00"%string
  | _ :: _ =>
      let hours := map (fun event => Py.hour (timestamp event)) recent_opens in
      match most_common_hour hours with
      | Some most_common_hour => (Py.fmt_02d most_common_hour ++ ":00")%string
      | None => "09:00"%string
      end
  end.

Definition update_subscriber_profile
    (db : Database) (now : Py.datetime) (sid : Z)
    : Database * SubscriberProfile :=
  let engagement_score := calculate_engagement_score db now sid 30 in
  let content_preferences := analyze_content_preferences db sid in
  let churn_risk_score := predict_churn_risk db now sid in
  let behavioral_segments := determine_behavioral_segments db now sid in
  let profile :=
    match get_profile db sid with
    | Some profile => profile
    | None => new_profile sid
    end in
  let profile :=
    {| subscriber_id := subscriber_id profile;
       engagement_score := engagement_score;
       content_preferences := content_preferences;
       behavioral_segments := behavioral_segments;
       churn_risk_score := churn_risk_score;
       optimal_send_time := Some (compute_optimal_send_time db now sid);
       last_updated := Some now |} in
  ({| subscribers := subscribers db;
      engagement_events := engagement_events db;
      subscriber_profiles := upsert profile (subscriber_profiles db) |},
   profile).

(** *** get_dashboard_analytics (lines 286-363) *)

Record DailyTrend := {
  date : string;
  opens : nat;
  clicks : nat;
  open_rate : Q;
  click_rate : Q
}.

Record Dashboard := {
  total_subscribers : nat;
  overall_open_rate : Q;
  overall_click_rate : Q;
  segments : list (string * nat);
  churn_risk_distribution : list (string * nat);
  daily_trends : list DailyTrend;
  total_events : nat
}.

(** The key of [churn_risk_distribution] that a profile adds to. *)
Definition risk_bucket (churn_risk_score : Q) : string :=
  if Py.Qgeb churn_risk_score 70 then "high"
  else if Py.Qgeb churn_risk_score 40 then "medium"
  else "low".

(** One turn of the loop over the subscribers (lines 314-327); the three
    keys of [churn_risk_distribution] exist from the start, so [+= 1] never
    adds a key. *)
Definition tally_subscriber (db : Database)
    (acc : list (string * nat) * list (string * nat)) (subscriber : Subscriber)
    : list (string * nat) * list (string * nat) :=
  let (segments_data, churn_risk_distribution) := acc in
  match get_profile db (id subscriber) with
  | Some profile =>
      let segments := behavioral_segments profile in
      let segments_data := fold_left (Py.incr String.eqb) segments segments_data in
      (segments_data,
       Py.incr String.eqb churn_risk_distribution
               (risk_bucket (churn_risk_score profile)))
  | None => acc
  end.

(** [EngagementEvent.query.filter(event_type == ty, timestamp >= day_start,
    timestamp < day_end).count()] *)
Definition day_count (db : Database) (ty : string)
    (day_start day_end : Py.datetime) : nat :=
  List.length
    (filter (fun e => is_type ty e && (day_start <=? timestamp e)
                      && (timestamp e <? day_end))
            (engagement_events db)).

(** One turn of the loop over [range(7)] (lines 331-353). *)
Definition daily_trend (db : Database) (end_date : Py.datetime)
    (total_subscribers : nat) (i : Z) : DailyTrend :=
  let day_start := end_date - Py.timedelta (i + 1) in
  let day_end := day_start + Py.timedelta 1 in
  let day_opens := day_count db "email_open" day_start day_end in
  let day_clicks := day_count db "link_click" day_start day_end in
  {| date := Py.strftime_ymd day_start;
     opens := day_opens;
     clicks := day_clicks;
     open_rate :=
       if (0 <? total_subscribers)%nat
       then (Py.of_nat day_opens / Py.of_nat total_subscribers * 100)%Q
       else 0%Q;
     click_rate :=
       if (0 <? total_subscribers)%nat
       then (Py.of_nat day_clicks / Py.of_nat total_subscribers * 100)%Q
       else 0%Q |}.

Definition get_dashboard_analytics
    (db : Database) (now : Py.datetime) (days : Z) : Dashboard :=
  let end_date := now in
  let start_date := end_date - Py.timedelta days in
  let subscribers := subscribers db in
  let total_subscribers := List.length subscribers in
  let events :=
    filter (fun e => start_date <=? timestamp e) (engagement_events db) in
  let total_opens := List.length (filter (is_type "email_open") events) in
  let total_clicks := List.length (filter (is_type "link_click") events) in
  let total_emails_sent := Z.of_nat total_subscribers * days in
  let overall_open_rate :=
    if 0 <? total_emails_sent
    then (Py.of_nat total_opens / inject_Z total_emails_sent * 100)%Q
    else 0%Q in
  let overall_click_rate :=
    if 0 <? total_emails_sent
    then (Py.of_nat total_clicks / inject_Z total_emails_sent * 100)%Q
    else 0%Q in
  let '(segments_data, churn_risk_distribution) :=
    fold_left (tally_subscriber db) subscribers
              ([], [("low", 0); ("medium", 0); ("high", 0)]%string%nat) in
  let daily_trends :=
    map (daily_trend db end_date total_subscribers) (Py.range 7) in
  {| total_subscribers := total_subscribers;
     overall_open_rate := Py.round overall_open_rate 2;
     overall_click_rate := Py.round overall_click_rate 2;
     segments := segments_data;
     churn_risk_distribution := churn_risk_distribution;
     daily_trends := rev daily_trends;
     total_events := List.length events |}.

End PersonalizationService.

(* ===================================================================== *)
(** ** The specification's vocabulary                                     *)
(* ===================================================================== *)

Module Spec.

(** Events of a subscriber with [now - days <= timestamp]: the scoring
    window as section 4.1 fetches it. *)
Definition since (db : Database) (now : Py.datetime) (sid days : Z)
    : list EngagementEvent :=
  filter (fun e => (ev_subscriber_id e =? sid)
                   && (now - days * Py.usec_per_day <=? timestamp e))
         (engagement_events db).

(** Events of a subscriber in the closed window [[now - days, now]]. *)
Definition in_window (db : Database) (now : Py.datetime) (sid days : Z)
    : list EngagementEvent :=
  filter (fun e => (ev_subscriber_id e =? sid)
                   && (now - days * Py.usec_per_day <=? timestamp e)
                   && (timestamp e <=? now))
         (engagement_events db).

(** Number of events of a given type. *)
Fixpoint count (ty : string) (events : list EngagementEvent) : nat :=
  match events with
  | [] => 0
  | e :: events' =>
      if String.eqb (event_type e) ty then S (count ty events')
      else count ty events'
  end.

Definition rate (n : nat) (total_emails : Z) : Q :=
  Qmin (inject_Z (Z.of_nat n) / inject_Z total_emails) 1.

(** [min(30*open_rate + 40*click_rate + 30*view_rate, 100)] *)
Definition engagement_formula (opens clicks views : nat) (days : Z) : Q :=
  let total_emails := Z.min days 30 in
  let open_rate := rate opens total_emails in
  let click_rate :=
    match opens with
    | O => 0%Q
    | S _ => rate clicks total_emails
    end in
  let view_rate := rate views total_emails in
  Qmin (30 * open_rate + 40 * click_rate + 30 * view_rate) 100.

(** *** Churn risk (section 4.2) *)

(** All events of a subscriber, in row order. *)
Definition events_of (db : Database) (sid : Z) : list EngagementEvent :=
  filter (fun e => ev_subscriber_id e =? sid) (engagement_events db).

(** Timestamp of the most recent event, if there is any event. *)
Definition latest_timestamp (events : list EngagementEvent) : option Z :=
  match events with
  | [] => None
  | e :: events' => Some (fold_left Z.max (map timestamp events') (timestamp e))
  end.

(** The four risk contributions; [None] when the contribution does not
    fire. *)
Definition inactivity_risk (days_since_last_engagement : Z) : option Z :=
  if Z_gt_dec days_since_last_engagement 14
  then Some (Z.min (days_since_last_engagement * 2) 40) else None.

Definition low_activity_risk (recent_events : Z) : option Z :=
  if Z_lt_dec recent_events 2 then Some 30 else None.

Definition newcomer_risk (days_since_signup recent_events : Z) : option Z :=
  if Z_le_dec days_since_signup 7
  then if Z.eq_dec recent_events 0 then Some 50 else None
  else None.

Definition veteran_risk (days_since_signup recent_events : Z) : option Z :=
  if Z_gt_dec days_since_signup 90
  then if Z_lt_dec recent_events 1 then Some 35 else None
  else None.

Definition amount (contribution : option Z) : Z :=
  match contribution with
  | Some r => r
  | None => 0
  end.

Definition fires (contribution : option Z) : bool :=
  match contribution with
  | Some _ => true
  | None => false
  end.

(** Sum of the triggered contributions clamped to 100, and 10 when none
    fires. *)
Definition churn_risk
    (days_since_last_engagement recent_events days_since_signup : Z) : Q :=
  let r1 := inactivity_risk days_since_last_engagement in
  let r2 := low_activity_risk recent_events in
  let r3 := newcomer_risk days_since_signup recent_events in
  let r4 := veteran_risk days_since_signup recent_events in
  if fires r1 || fires r2 || fires r3 || fires r4
  then Qmin (inject_Z (amount r1 + amount r2 + amount r3 + amount r4)) 100
  else 10.

(** *** Segments (section 4.4) *)

Definition engagement_labels : list string :=
  ["high_engagement"; "medium_engagement"; "low_engagement"]%string.

Definition churn_labels : list string :=
  ["high_churn_risk"; "medium_churn_risk"; "low_churn_risk"]%string.

Definition focus_labels : list string :=
  ["stock_focused"; "market_focused"; "news_focused"]%string.

(** How many entries of [segments] are labels of the family [labels]. *)
Fixpoint occurrences (labels segments : list string) : nat :=
  match segments with
  | [] => 0
  | s :: segments' =>
      if in_dec string_dec s labels then S (occurrences labels segments')
      else occurrences labels segments'
  end.

(** The tier of a score: thresholds [>= 70] and [>= 40]. *)
Definition tier (high medium low : string) (score : Q) : string :=
  if Qlt_le_dec score 40 then low
  else if Qlt_le_dec score 70 then medium
  else high.

Definition engagement_tier : Q -> string :=
  tier "high_engagement" "medium_engagement" "low_engagement".

Definition churn_tier : Q -> string :=
  tier "high_churn_risk" "medium_churn_risk" "low_churn_risk".

(** *** Preferences (section 4.3) *)

(** Sum of the values of a mapping. *)
Definition total (preferences : list (string * Q)) : Q :=
  fold_right (fun kv acc => (snd kv + acc)%Q) 0%Q preferences.

(** Number of events that carry a content section. *)
Definition with_section (events : list EngagementEvent) : nat :=
  List.length (filter (fun e => Py.truthy (content_section e)) events).

(** *** Optimal send time (section 4.5) *)

(** The [email_open] events of a subscriber since 30 days before [now]. *)
Definition recent_opens (db : Database) (now : Py.datetime) (sid : Z)
    : list EngagementEvent :=
  filter (fun e => (ev_subscriber_id e =? sid)
                   && String.eqb (event_type e) "email_open"
                   && (now - 30 * Py.usec_per_day <=? timestamp e))
         (engagement_events db).

Definition open_hours (db : Database) (now : Py.datetime) (sid : Z) : list Z :=
  map (fun e => Py.hour (timestamp e)) (recent_opens db now sid).

(** Number of occurrences of an hour. *)
Definition occ (hours : list Z) (h : Z) : nat := count_occ Z.eq_dec hours h.

(** [h] is an hour of highest count. *)
Definition most_frequent (hours : list Z) (h : Z) : bool :=
  forallb (fun h' => (occ hours h' <=? occ hours h)%nat) hours.

(** The hour of highest count whose first occurrence comes first in the
    list. *)
Definition first_most_frequent (hours : list Z) : option Z :=
  find (most_frequent hours) hours.

(** The lowest hour of highest count. *)
Definition lowest_most_frequent (hours : list Z) : option Z :=
  find (fun h => existsb (Z.eqb h) hours && most_frequent hours h)
       (map Z.of_nat (seq 0 24)).

Definition digit (n : Z) : ascii := ascii_of_nat (48 + Z.to_nat n).

(** ["HH:00"] *)
Definition hh00 (h : Z) : string :=
  String (digit (h / 10)) (String (digit (h mod 10)) ":00").

Definition send_time (choice : option Z) : string :=
  match choice with
  | Some h => hh00 h
  | None => "09:00"
  end.

(** *** Subject line (section 4.6) *)

Definition ends_with (s suffix : string) : Prop :=
  exists prefix, s = (prefix ++ suffix)%string.

(** [needle] occurs somewhere in [hay]. *)
Definition occurs_in (needle hay : string) : Prop :=
  exists before after, hay = (before ++ needle ++ after)%string.

(** The stock rule and the market rule of the personalizer, on the
    lower-cased summary. *)
Definition stock_rule (segments : list string) (lowered : string) : Prop :=
  In "stock_focused"%string segments /\ occurs_in "stock" lowered.

Definition market_rule (segments : list string) (lowered : string) : Prop :=
  In "market_focused"%string segments /\ occurs_in "market" lowered.

(** The texts the rules put in front, as the source file spells them. *)
Definition stock_text : string := "ðŸ“ˆ Stock Alert: ".
Definition market_text : string := "ðŸ“Š Market Update: ".

Definition high_engagement_text : string := "ðŸ”¥ ".

(** The text of the engagement tier: one for [high_engagement], one for
    [low_engagement], none otherwise. *)
Definition engagement_text (segments : list string) : string :=
  if in_dec string_dec "high_engagement"%string segments
  then high_engagement_text
  else if in_dec string_dec "low_engagement"%string segments
  then "Quick Read: "
  else "".

(** "Don't Miss: ", present iff [high_churn_risk] is a segment. *)
Definition urgency_text (segments : list string) : string :=
  if in_dec string_dec "high_churn_risk"%string segments then "Don't Miss: "
  else "".

(** *** Content order (section 4.7) *)



End Spec.

(** A store with one open stamped an hour after the instant of the call. *)
Definition db_future_open : Database :=
  {| subscribers := [ {| id := 1; signup_date := 0 |} ];
     engagement_events :=
       [ {| ev_subscriber_id := 1; event_type := "email_open";
            content_section := None;
            timestamp := 1000 * Py.usec_per_day + Py.usec_per_hour |} ];
     subscriber_profiles := [] |}.

Definition now_1000 : Py.datetime := 1000 * Py.usec_per_day.

(** Two stores whose windows differ by one open. *)
Definition open_at (sid : Z) (t : Py.datetime) : EngagementEvent :=
  {| ev_subscriber_id := sid; event_type := "email_open";
     content_section := None; timestamp := t |}.

Definition db_one_open : Database :=
  {| subscribers := [ {| id := 1; signup_date := 0 |} ];
     engagement_events := [ open_at 1 (now_1000 - Py.usec_per_day) ];
     subscriber_profiles := [] |}.

Definition db_two_opens : Database :=
  {| subscribers := [ {| id := 1; signup_date := 0 |} ];
     engagement_events :=
       [ open_at 1 (now_1000 - Py.usec_per_day);
         open_at 1 (now_1000 - 2 * Py.usec_per_day) ];
     subscriber_profiles := [] |}.

(** The subscriber of the specification's example: signed up 100 days ago,
    one event 20 days ago, nothing in the last 14 days. *)
Definition db_dormant : Database :=
  {| subscribers := [ {| id := 1; signup_date := now_1000 - 100 * Py.usec_per_day |} ];
     engagement_events := [ open_at 1 (now_1000 - 20 * Py.usec_per_day) ];
     subscriber_profiles := [] |}.

(** A subscriber who opened a mail (no section is recorded for an open) and
    clicked a link of one section. *)
Definition db_open_and_click : Database :=
  {| subscribers := [ {| id := 1; signup_date := 0 |} ];
     engagement_events :=
       [ open_at 1 (now_1000 - Py.usec_per_day);
         {| ev_subscriber_id := 1; event_type := "link_click";
            content_section := Some "Market Analysis"%string;
            timestamp := now_1000 - Py.usec_per_day + 60000000 |} ];
     subscriber_profiles := [] |}.

(** A subscriber all of whose events carry a section. *)
Definition db_two_clicks : Database :=
  {| subscribers := [ {| id := 1; signup_date := 0 |} ];
     engagement_events :=
       [ {| ev_subscriber_id := 1; event_type := "link_click";
            content_section := Some "Market Analysis"%string;
            timestamp := now_1000 - Py.usec_per_day |};
         {| ev_subscriber_id := 1; event_type := "link_click";
            content_section := Some "Stock Spotlight"%string;
            timestamp := now_1000 - 2 * Py.usec_per_day |} ];
     subscriber_profiles := [] |}.

(** A subscriber with two recent opens, the first at 10 h and the second
    at 8 h. *)
Definition db_opens_10_then_8 : Database :=
  {| subscribers := [ {| id := 1; signup_date := 0 |} ];
     engagement_events :=
       [ open_at 1 (now_1000 - 2 * Py.usec_per_day + 10 * Py.usec_per_hour);
         open_at 1 (now_1000 - Py.usec_per_day + 8 * Py.usec_per_hour) ];
     subscriber_profiles := [] |}.

(** A subscriber with a stored profile: highly engaged, at high churn
    risk, focused on stocks. *)
Definition profile_stock_fan : SubscriberProfile :=
  {| subscriber_id := 1;
     engagement_score := 80;
     content_preferences :=
       [("Stock Spotlight"%string, 60%Q); ("Economic News"%string, 40%Q)];
     behavioral_segments :=
       ["high_engagement"; "high_churn_risk"; "stock_focused"]%string;
     churn_risk_score := 100;
     optimal_send_time := Some "09:00"%string;
     last_updated := Some now_1000 |}.

Definition db_stock_fan : Database :=
  {| subscribers := [ {| id := 1; signup_date := 0 |} ];
     engagement_events := [];
     subscriber_profiles := [ profile_stock_fan ] |}.

Definition item (section type title : string) : ContentItem :=
  {| section_name := Some section; content_type := Some type; title := title |}.

Definition newsletter : list ContentItem :=
  [ item "Market Analysis" "market_commentary" "a";
    item "Economic News" "news" "b";
    item "Value Picks" "recommendation" "c";
    item "Stock Spotlight" "stock_analysis" "d" ]%string.

Import PersonalizationService.

(** The score as a function of the three counts and the window length. *)
Definition score_of_counts (opens clicks views : nat) (days : Z) : Q :=
  if Z.min days 30 =? 0 then 0%Q
  else Spec.engagement_formula opens clicks views days.


(** Sum of the counters of a [defaultdict(int)]. *)
Definition counted (d : list (string * nat)) : nat :=
  fold_right (fun kv acc => (snd kv + acc)%nat) 0%nat d.

(** The distinct elements of a list in the order of their first
    occurrence: the keys of its [Counter]. *)
Fixpoint first_seen (l : list Z) : list Z :=
  match l with
  | [] => []
  | x :: l' => x :: filter (fun y => negb (y =? x)) (first_seen l')
  end.


(* ===================================================================== *)
(** ** services/advanced_personalization.py                               *)
(* ===================================================================== *)

Module AdvancedPersonalizationService.

(** *** optimize_send_time (lines 137-196) *)

(** The dictionary the function returns; the keys that only the branch
    with data sets are optional. *)
Record SendTimeAdvice := {
  recommended_time : string;
  confidence : string;
  analysis : string;
  peak_day : option string;
  hourly_distribution : option (list (Z * nat));
  confidence_score : option Q
}.

Definition day_names : list string :=
  ["Monday"; "Tuesday"; "Wednesday"; "Thursday"; "Friday"; "Saturday";
   "Sunday"]%string.

(** [max(d, key=d.get)] on a counter: the first key of highest count;
    [None] stands for the [ValueError] on an empty dictionary, which the
    function never meets since both counters hold an entry as soon as there
    is an event. *)
Definition peak (d : list (Z * nat)) : option Z :=
  Py.max_by Nat.ltb (fun k => Py.get_default Z.eqb d k 0%nat) (Py.keys d).

Definition optimize_send_time (db : Database) (sid : Z) : SendTimeAdvice :=
  let events :=
    filter (fun e => (ev_subscriber_id e =? sid) && is_type "email_open" e)
           (engagement_events db) in
  match events with
  | [] =>
      {| recommended_time := "09:00"%string;
         confidence := "low"%string;
         analysis := "Insufficient data for optimization"%string;
         peak_day := None;
         hourly_distribution := None;
         confidence_score := None |}
  | _ :: _ =>
      let hour_counts :=
        fold_left (fun d event => Py.incr Z.eqb d (Py.hour (timestamp event)))
                  events [] in
      let day_counts :=
        fold_left (fun d event => Py.incr Z.eqb d (Py.weekday (timestamp event)))
                  events [] in
      match peak hour_counts, peak day_counts with
      | Some peak_hour, Some peak_day =>
          let peak_count := Py.get_default Z.eqb hour_counts peak_hour 0%nat in
          let total_opens := fold_right Nat.add 0%nat (Py.values hour_counts) in
          let confidence_score :=
            (Py.of_nat peak_count / Py.of_nat total_opens)%Q in
          let confidence :=
            if Py.Qltb (4 # 10) confidence_score then "high"%string
            else if Py.Qltb (25 # 100) confidence_score then "medium"%string
            else "low"%string in
          let day_name := nth (Z.to_nat peak_day) day_names ""%string in
          {| recommended_time := (Py.fmt_02d peak_hour ++ ":00")%string;
             confidence := confidence;
             analysis :=
               ("Peak engagement at " ++ Py.fmt_02d peak_hour ++ ":00 on "
                ++ day_name ++ "s")%string;
             peak_day := Some day_name;
             hourly_distribution := Some hour_counts;
             confidence_score := Some (Py.round (confidence_score * 100) 1) |}
      | _, _ =>
          {| recommended_time := "09:00"%string;
             confidence := "low"%string;
             analysis := "Using default morning time"%string;
             peak_day := None;
             hourly_distribution := None;
             confidence_score := None |}
      end
  end.

End AdvancedPersonalizationService.

(* ===================================================================== *)
(** ** routes/personalization.py: the handlers that call the service      *)
(* ===================================================================== *)

Module Routes.

(** The JSON body of [POST /events]; an absent key is [None]. *)
Record EventRequest := {
  rq_subscriber_id : option Z;
  rq_event_type : option string;
  rq_platform_id : option string;
  rq_content_section : option string
}.

(** What a handler leaves behind: the HTTP status and the database. *)
Definition response : Type := Z * Database.

(** create_engagement_event (lines 102-141).  The new row takes the column
    default [datetime.utcnow] as its timestamp; the columns the service
    never reads ([platform_id], [newsletter_id], [event_data]) are not part
    of the row, and the JSON body of the answer is left out. *)
Definition create_engagement_event
    (db : Database) (now : Py.datetime) (data : EventRequest) : response :=
  match rq_subscriber_id data, rq_event_type data, rq_platform_id data with
  | Some sid, Some ty, Some _ =>
      match get_subscriber db sid with
      | None => (404, db)
      | Some _ =>
          let event :=
            {| ev_subscriber_id := sid;
               event_type := ty;
               content_section := rq_content_section data;
               timestamp := now |} in
          let db :=
            {| subscribers := subscribers db;
               engagement_events := engagement_events db ++ [event];
               subscriber_profiles := subscriber_profiles db |} in
          let (db, _) :=
            PersonalizationService.update_subscriber_profile db now sid in
          (201, db)
      end
  | _, _, _ => (400, db)
  end.

(** update_subscriber_profile (lines 277-289), [PUT
    /subscribers/<id>/profile] *)
Definition update_subscriber_profile
    (db : Database) (now : Py.datetime) (sid : Z) : response :=
  match get_subscriber db sid with
  | None => (404, db)
  | Some _ =>
      let (db, _) :=
        PersonalizationService.update_subscriber_profile db now sid in
      (200, db)
  end.

End Routes.

(* ===================================================================== *)
(** ** Further vocabulary                                                  *)
(* ===================================================================== *)

Module Facts.

(** Every profile row belongs to a subscriber of the registry. *)
Definition referential (db : Database) : Prop :=
  forall p, In p (subscriber_profiles db) ->
            get_subscriber db (subscriber_id p) <> None.


(** Number of events that carry the non-empty section [s]. *)
Definition in_section (s : string) (events : list EngagementEvent) : nat :=
  List.length
    (filter (fun e => match content_section e with
                      | Some s' => negb (String.eqb s' "") && String.eqb s' s
                      | None => false
                      end) events).

(** The text the engagement score earns: the urgent one from 70, the
    short-read one below 40, none in between. *)
Definition tone (engagement_score : Q) : string :=
  if Qlt_le_dec engagement_score 40 then "Quick Read: "%string
  else if Qlt_le_dec engagement_score 70 then ""%string
  else Spec.high_engagement_text.

(** The urgency text the churn risk earns: from 70. *)
Definition urgency (churn_risk : Q) : string :=
  if Qlt_le_dec churn_risk 70 then ""%string
  else "Don't Miss: "%string.

(** An integer that SQLite stores and the driver binds: a signed 64-bit
    value.  The driver raises [OverflowError] on any other [int], before
    the query runs. *)
Definition sqlite_integer (n : Z) : Prop := - 2 ^ 63 <= n < 2 ^ 63.

(** The keyword a content-focus label stands for. *)
Definition keyword (label : string) : string :=
  if String.eqb label "stock_focused" then "stock_analysis"
  else if String.eqb label "market_focused" then "market"
  else "news".

(** All [email_open] events of a subscriber. *)
Definition opens_of (db : Database) (sid : Z) : list EngagementEvent :=
  filter (fun e => (ev_subscriber_id e =? sid)
                   && String.eqb (event_type e) "email_open")
         (engagement_events db).

(** The events of one type in the half-open interval [[from, to)]. *)
Definition between (db : Database) (ty : string) (from to : Py.datetime)
    : list EngagementEvent :=
  filter (fun e => String.eqb (event_type e) ty
                   && (from <=? timestamp e) && (timestamp e <? to))
         (engagement_events db).

(** The subscribers of the registry that have a profile row. *)
Definition profiled (db : Database) : list Subscriber :=
  filter (fun s => match get_profile db (id s) with
                   | Some _ => true
                   | None => false
                   end) (subscribers db).

Definition segments_of (db : Database) (s : Subscriber) : list string :=
  match get_profile db (id s) with
  | Some p => behavioral_segments p
  | None => []
  end.

End Facts.


(** A subscriber who signed up three days ago and has no event yet, and one
    with two events in the last two weeks. *)
Definition db_newcomer : Database :=
  {| subscribers := [ {| id := 2; signup_date := now_1000 - 3 * Py.usec_per_day |} ];
     engagement_events := [];
     subscriber_profiles := [] |}.

Definition newcomer : Subscriber :=
  {| id := 2; signup_date := now_1000 - 3 * Py.usec_per_day |}.

(** A subscriber with clicks and views in the window but no open. *)
Definition db_clicks_only : Database :=
  {| subscribers := [ {| id := 1; signup_date := 0 |} ];
     engagement_events :=
       [ {| ev_subscriber_id := 1; event_type := "link_click";
            content_section := Some "Market Analysis"%string;
            timestamp := now_1000 - Py.usec_per_day |};
         {| ev_subscriber_id := 1; event_type := "content_view";
            content_section := Some "Market Analysis"%string;
            timestamp := now_1000 - Py.usec_per_day + 60000000 |} ];
     subscriber_profiles := [] |}.

(** A subscriber whose clicks go to a market section twice and to a news
    section once. *)
Definition click_at (sid : Z) (section : string) (t : Py.datetime)
    : EngagementEvent :=
  {| ev_subscriber_id := sid; event_type := "link_click";
     content_section := Some section; timestamp := t |}.

Definition db_market_reader : Database :=
  {| subscribers := [ {| id := 1; signup_date := 0 |} ];
     engagement_events :=
       [ click_at 1 "Economic News" (now_1000 - 3 * Py.usec_per_day);
         click_at 1 "Market Analysis" (now_1000 - 2 * Py.usec_per_day);
         click_at 1 "Market Analysis" (now_1000 - Py.usec_per_day) ];
     subscriber_profiles := [] |}.

(** The seven day windows of the dashboard, oldest first. *)
Definition week_counts (db : Database) (ty : string) (now : Py.datetime)
    : list nat :=
  map (fun i => day_count db ty (now - Py.timedelta (i + 1))
                          (now - Py.timedelta (i + 1) + Py.timedelta 1))
      [6; 5; 4; 3; 2; 1; 0].

(** A request recording an open of subscriber 2, and one for an id that is
    not registered. *)
Definition open_request (sid : Z) : Routes.EventRequest :=
  {| Routes.rq_subscriber_id := Some sid;
     Routes.rq_event_type := Some "email_open"%string;
     Routes.rq_platform_id := Some "mailchimp"%string;
     Routes.rq_content_section := None |}.

(** A profile row stored under an id that is not in the registry: no
    foreign key is enforced between the two tables. *)
Definition db_orphan_profile : Database :=
  {| subscribers := [ {| id := 1; signup_date := 0 |} ];
     engagement_events := [];
     subscriber_profiles :=
       [ {| subscriber_id := 7;
            engagement_score := 80;
            content_preferences :=
              [("Stock Spotlight"%string, 60%Q); ("Economic News"%string, 40%Q)];
            behavioral_segments :=
              ["high_engagement"; "low_churn_risk"]%string;
            churn_risk_score := 0;
            optimal_send_time := Some "09:00"%string;
            last_updated := Some now_1000 |} ] |}.
(* ===================================================================== *)
(** ** Engagement score                                                   *)
(* ===================================================================== *)

Section EngagementScore.

Lemma count_filter ty events :
  List.length (filter (is_type ty) events) = Spec.count ty events.
Proof.
  induction events as [|e events IH]; simpl; [reflexivity|].
  unfold is_type at 1. destruct (String.eqb (event_type e) ty); simpl; congruence.
Qed.

Lemma since_fetch db now sid days :
  filter (fun e => (ev_subscriber_id e =? sid)
                   && (now - Py.timedelta days <=? timestamp e))
         (engagement_events db)
  = Spec.since db now sid days.
Proof. reflexivity. Qed.

Lemma rate_nonneg n t : 0 < t -> (0 <= Spec.rate n t)%Q.
Proof.
  intros Ht. unfold Spec.rate. apply Q.min_glb; [|lra].
  apply Qle_shift_div_l.
  - change 0%Q with (inject_Z 0). rewrite <- Zlt_Qlt. exact Ht.
  - rewrite Qmult_0_l. change 0%Q with (inject_Z 0). rewrite <- Zle_Qle. lia.
Qed.

Lemma rate_le_1 n t : (Spec.rate n t <= 1)%Q.
Proof. apply Q.le_min_r. Qed.

Lemma rate_mono n m t :
  0 < t -> (n <= m)%nat -> (Spec.rate n t <= Spec.rate m t)%Q.
Proof.
  intros Ht Hnm. unfold Spec.rate. apply Q.min_le_compat_r.
  unfold Qdiv. apply Qmult_le_compat_r.
  - rewrite <- Zle_Qle. lia.
  - apply Qinv_le_0_compat. change 0%Q with (inject_Z 0).
    rewrite <- Zle_Qle. lia.
Qed.

Lemma rate_0 t : (Spec.rate 0 t == 0)%Q.
Proof.
  unfold Spec.rate. simpl. unfold Qdiv. rewrite Qmult_0_l.
  apply Q.min_l. lra.
Qed.

Lemma score_since db now sid days :
  let events := Spec.since db now sid days in
  (calculate_engagement_score db now sid days ==
   score_of_counts (Spec.count "email_open" events)
                   (Spec.count "link_click" events)
                   (Spec.count "content_view" events) days)%Q.
Proof.
  cbv zeta. unfold calculate_engagement_score, score_of_counts.
  rewrite since_fetch.
  destruct (Spec.since db now sid days) as [|e events] eqn:E.
  - simpl Spec.count. destruct (Z.min days 30 =? 0); [reflexivity|].
    unfold Spec.engagement_formula. rewrite !rate_0.
    symmetry. apply Q.min_l. lra.
  - rewrite !count_filter.
    destruct (Z.min days 30 =? 0); [reflexivity|].
    unfold Spec.engagement_formula, Spec.rate, Py.of_nat.
    destruct (Spec.count "email_open" (e :: events)) as [|o];
      cbv beta iota zeta delta [Nat.ltb Nat.leb];
      (apply Q.min_compat; [ring | reflexivity]).
Qed.

Lemma score_of_counts_mono o o' c c' v v' d :
  0 <= d -> (o <= o')%nat -> (c <= c')%nat -> (v <= v')%nat ->
  (score_of_counts o c v d <= score_of_counts o' c' v' d)%Q.
Proof.
  intros Hd Ho Hc Hv. unfold score_of_counts.
  destruct (Z.min d 30 =? 0) eqn:E; [lra|].
  apply Z.eqb_neq in E.
  assert (Ht : 0 < Z.min d 30) by lia.
  unfold Spec.engagement_formula. apply Q.min_le_compat_r.
  pose proof (rate_mono o o' _ Ht Ho) as Hro.
  pose proof (rate_mono v v' _ Ht Hv) as Hrv.
  pose proof (rate_mono c c' _ Ht Hc) as Hrc.
  pose proof (rate_nonneg c' _ Ht) as Hc0.
  destruct o as [|o], o' as [|o'']; try lia; lra.
Qed.

Lemma score_of_counts_range o c v d :
  0 <= d -> (0 <= score_of_counts o c v d <= 100)%Q.
Proof.
  intros Hd. unfold score_of_counts.
  destruct (Z.min d 30 =? 0) eqn:E; [lra|].
  apply Z.eqb_neq in E.
  assert (Ht : 0 < Z.min d 30) by lia.
  unfold Spec.engagement_formula. split; [|apply Q.le_min_r].
  apply Q.min_glb; [|lra].
  pose proof (rate_nonneg o _ Ht). pose proof (rate_nonneg c _ Ht).
  pose proof (rate_nonneg v _ Ht).
  destruct o; lra.
Qed.

End EngagementScore.

(** C1 (as stated, refuted).  The fetch has no upper bound: an open stamped
    after the instant of the call lies outside the closed window
    [[now - 30 days, now]], yet it is fetched and scored, so the score is
    not 0 although the closed window is empty.  Such rows exist:
    [demo_data_seeder.py] stamps the opens of the current day at an hour
    between 7 and 11, whatever the time of the call. *)
Lemma engagement_score_closed_window_fails :
  Spec.in_window db_future_open now_1000 1 30 = []
  /\ ~ (calculate_engagement_score db_future_open now_1000 1 30 == 0)%Q.
Proof.
  split; [reflexivity|].
  vm_compute. discriminate.
Qed.

(** C1 (amended).  With the window taken as the code fetches it (events of
    the subscriber with [now - days <= timestamp], no upper bound), the
    score is 0 when the window is empty and when [min(days, 30)] is 0, and
    otherwise [min(30*open_rate + 40*click_rate + 30*view_rate, 100)] on the
    counts of opens, clicks and views in the window. *)
Theorem engagement_score_since db now sid days :
  let events := Spec.since db now sid days in
  (calculate_engagement_score db now sid days ==
   match events with
   | [] => 0
   | _ :: _ =>
       if Z.min days 30 =? 0 then 0
       else Spec.engagement_formula (Spec.count "email_open" events)
                                    (Spec.count "link_click" events)
                                    (Spec.count "content_view" events) days
   end)%Q.
Proof.
  cbv zeta. rewrite score_since. cbv zeta. unfold score_of_counts.
  destruct (Spec.since db now sid days) as [|e events] eqn:E; [|reflexivity].
  simpl Spec.count. destruct (Z.min days 30 =? 0); [reflexivity|].
  unfold Spec.engagement_formula. rewrite !rate_0.
  apply Q.min_l. lra.
Qed.

(** C7.  For a window length [0 <= days] the score does not decrease when
    the number of opens, of clicks or of content views in the window grows
    while the other two counts stay the same, and it lies in [[0, 100]]. *)
Theorem engagement_score_monotone_bounded
    db now sid db' now' sid' days :
  0 <= days ->
  let events := Spec.since db now sid days in
  let events' := Spec.since db' now' sid' days in
  let opens := Spec.count "email_open" events in
  let clicks := Spec.count "link_click" events in
  let views := Spec.count "content_view" events in
  let opens' := Spec.count "email_open" events' in
  let clicks' := Spec.count "link_click" events' in
  let views' := Spec.count "content_view" events' in
  let score := calculate_engagement_score db now sid days in
  let score' := calculate_engagement_score db' now' sid' days in
  ((opens <= opens')%nat -> clicks = clicks' -> views = views' ->
   (score <= score')%Q)
  /\ (opens = opens' -> (clicks <= clicks')%nat -> views = views' ->
      (score <= score')%Q)
  /\ (opens = opens' -> clicks = clicks' -> (views <= views')%nat ->
      (score <= score')%Q)
  /\ (0 <= score <= 100)%Q.
Proof.
  intros Hd. cbv zeta.
  pose proof (score_since db now sid days) as E. cbv zeta in E.
  pose proof (score_since db' now' sid' days) as E'. cbv zeta in E'.
  rewrite E, E'.
  repeat split.
  - intros Ho Hc Hv. apply score_of_counts_mono; lia.
  - intros Ho Hc Hv. apply score_of_counts_mono; lia.
  - intros Ho Hc Hv. apply score_of_counts_mono; lia.
  - apply score_of_counts_range; exact Hd.
  - apply score_of_counts_range; exact Hd.
Qed.

Lemma engagement_score_monotone_bounded_witness :
  0 <= 30
  /\ (calculate_engagement_score db_one_open now_1000 1 30
      <= calculate_engagement_score db_two_opens now_1000 1 30)%Q
  /\ (0 <= calculate_engagement_score db_one_open now_1000 1 30 <= 100)%Q.
Proof.
  assert (H : 0 <= 30) by lia.
  split; [exact H|].
  destruct (engagement_score_monotone_bounded
              db_one_open now_1000 1 db_two_opens now_1000 1 30 H)
    as (Ho & _ & _ & Hr).
  split; [|exact Hr].
  apply Ho; vm_compute; [lia | reflexivity | reflexivity].
Defined.

(* ===================================================================== *)
(** ** Churn risk                                                         *)
(* ===================================================================== *)

Section ChurnRisk.

Lemma max_from_timestamp (events : list EngagementEvent) :
  forall best,
    timestamp (Py.max_from Z.ltb timestamp best events)
    = fold_left Z.max (map timestamp events) (timestamp best).
Proof.
  induction events as [|e events IH]; intros best; simpl; [reflexivity|].
  rewrite IH. f_equal.
  destruct (timestamp best <? timestamp e) eqn:E.
  - apply Z.ltb_lt in E. lia.
  - apply Z.ltb_ge in E. lia.
Qed.

Lemma latest_event_timestamp events :
  option_map timestamp (latest_event events) = Spec.latest_timestamp events.
Proof.
  destruct events as [|e events]; simpl; [reflexivity|].
  f_equal. apply max_from_timestamp.
Qed.

Lemma fold_add_shift l : forall a b,
  fold_left Z.add l (a + b) = a + fold_left Z.add l b.
Proof.
  induction l as [|y l IH]; intros a b; simpl; [reflexivity|].
  rewrite <- IH. f_equal. lia.
Qed.

Lemma sum_cons x l : Py.sum (x :: l) = x + Py.sum l.
Proof.
  unfold Py.sum. simpl. rewrite <- fold_add_shift. f_equal. lia.
Qed.

Lemma last_engagement_gap events now dss :
  match latest_event events with
  | Some e => Py.days (now - timestamp e)
  | None => dss
  end
  = match Spec.latest_timestamp events with
    | Some t => Py.days (now - t)
    | None => dss
    end.
Proof.
  rewrite <- latest_event_timestamp.
  destruct (latest_event events); reflexivity.
Qed.

Lemma sum_nil : Py.sum [] = 0.
Proof. reflexivity. Qed.

Lemma clamp_range s : 10 <= s -> (10 <= Qmin (inject_Z s) 100 <= 100)%Q.
Proof.
  intros Hs. split; [|apply Q.le_min_r].
  apply Q.min_glb; [|lra].
  change 10%Q with (inject_Z 10). rewrite <- Zle_Qle. exact Hs.
Qed.

Lemma risk_factors_spec dsle recent dss :
  let r1 := Spec.inactivity_risk dsle in
  let r2 := Spec.low_activity_risk recent in
  let r3 := Spec.newcomer_risk dss recent in
  let r4 := Spec.veteran_risk dss recent in
  let l := risk_factors_of dsle recent dss in
  Py.sum l = Spec.amount r1 + Spec.amount r2 + Spec.amount r3 + Spec.amount r4
  /\ (l = [] <-> Spec.fires r1 || Spec.fires r2 || Spec.fires r3 || Spec.fires r4 = false)
  /\ (l <> [] -> 30 <= Py.sum l).
Proof.
  cbv zeta.
  unfold risk_factors_of, Spec.inactivity_risk, Spec.low_activity_risk,
    Spec.newcomer_risk, Spec.veteran_risk.
  destruct (Z_gt_dec dsle 14) as [H1|H1];
    [ assert (E1 : (14 <? dsle) = true) by (apply Z.ltb_lt; lia)
    | assert (E1 : (14 <? dsle) = false) by (apply Z.ltb_ge; lia) ];
  rewrite E1; clear E1;
  (destruct (Z_lt_dec recent 2) as [H2|H2];
    [ assert (E2 : (recent <? 2) = true) by (apply Z.ltb_lt; lia)
    | assert (E2 : (recent <? 2) = false) by (apply Z.ltb_ge; lia) ];
   rewrite E2; clear E2);
  (destruct (Z_le_dec dss 7) as [H3|H3];
    [ assert (E3 : (dss <=? 7) = true) by (apply Z.leb_le; lia)
    | assert (E3 : (dss <=? 7) = false) by (apply Z.leb_gt; lia) ];
   rewrite E3; clear E3);
  (destruct (Z.eq_dec recent 0) as [H4|H4];
    [ assert (E4 : (recent =? 0) = true) by (apply Z.eqb_eq; lia)
    | assert (E4 : (recent =? 0) = false) by (apply Z.eqb_neq; lia) ];
   rewrite E4; clear E4);
  (destruct (Z_gt_dec dss 90) as [H5|H5];
    [ assert (E5 : (90 <? dss) = true) by (apply Z.ltb_lt; lia)
    | assert (E5 : (90 <? dss) = false) by (apply Z.ltb_ge; lia) ];
   rewrite E5; clear E5);
  (destruct (Z_lt_dec recent 1) as [H6|H6];
    [ assert (E6 : (recent <? 1) = true) by (apply Z.ltb_lt; lia)
    | assert (E6 : (recent <? 1) = false) by (apply Z.ltb_ge; lia) ];
   rewrite E6; clear E6);
  try lia;
  cbn [andb orb app Spec.amount Spec.fires];
  rewrite ?sum_cons, ?sum_nil;
  (split; [lia | split; [split; intros; congruence
                         | intros Hne; first [lia | congruence]]]).
Qed.

End ChurnRisk.

(** C2.  For a subscriber of the registry the churn risk is the sum of the
    triggered contributions clamped to 100, it is 10 when no contribution
    fires, and it always lies in [[10, 100]]. *)
Theorem churn_risk_range db now sid subscriber :
  get_subscriber db sid = Some subscriber ->
  let days_since_signup := Py.days (now - signup_date subscriber) in
  let recent_events := Z.of_nat (List.length (Spec.since db now sid 14)) in
  let days_since_last_engagement :=
    match Spec.latest_timestamp (Spec.events_of db sid) with
    | Some t => Py.days (now - t)
    | None => days_since_signup
    end in
  (predict_churn_risk db now sid ==
   Spec.churn_risk days_since_last_engagement recent_events days_since_signup)%Q
  /\ (10 <= predict_churn_risk db now sid <= 100)%Q.
Proof.
  intros Hsub. cbv zeta. unfold predict_churn_risk. rewrite Hsub.
  fold (Spec.events_of db sid).
  rewrite <- last_engagement_gap.
  change (filter (fun e => (ev_subscriber_id e =? sid)
                           && (now - Py.timedelta 14 <=? timestamp e))
                 (engagement_events db)) with (Spec.since db now sid 14).
  set (dss := Py.days (now - signup_date subscriber)).
  set (recent := Z.of_nat (List.length (Spec.since db now sid 14))).
  set (dsle := match latest_event (Spec.events_of db sid) with
               | Some e => Py.days (now - timestamp e)
               | None => dss
               end).
  destruct (risk_factors_spec dsle recent dss) as (Hsum & Hnil & Hlow).
  cbv zeta in Hsum, Hnil, Hlow. unfold Spec.churn_risk. cbv zeta.
  destruct (risk_factors_of dsle recent dss) as [|r rs] eqn:El.
  - rewrite (proj1 Hnil eq_refl). split; [reflexivity | lra].
  - destruct (Spec.fires (Spec.inactivity_risk dsle)
              || Spec.fires (Spec.low_activity_risk recent)
              || Spec.fires (Spec.newcomer_risk dss recent)
              || Spec.fires (Spec.veteran_risk dss recent)) eqn:Ef.
    + rewrite <- Hsum. split; [reflexivity|].
      apply clamp_range. assert (30 <= Py.sum (r :: rs)) by (apply Hlow; congruence). lia.
    + exfalso. assert (r :: rs = []) by (apply Hnil; reflexivity). congruence.
Qed.

Lemma churn_risk_range_witness :
  (predict_churn_risk db_dormant now_1000 1 == 100)%Q
  /\ (10 <= predict_churn_risk db_dormant now_1000 1 <= 100)%Q.
Proof.
  destruct (churn_risk_range db_dormant now_1000 1
              {| id := 1; signup_date := now_1000 - 100 * Py.usec_per_day |}
              eq_refl) as [Hv Hr].
  split; [|exact Hr].
  rewrite Hv. vm_compute. reflexivity.
Defined.

(* ===================================================================== *)
(** ** Behavioural segments                                               *)
(* ===================================================================== *)

Section Segments.

Lemma Qgeb_true x y : Py.Qgeb x y = true <-> (y <= x)%Q.
Proof. unfold Py.Qgeb. apply Qle_bool_iff. Qed.

Lemma Qgeb_false x y : Py.Qgeb x y = false <-> (x < y)%Q.
Proof.
  unfold Py.Qgeb. split.
  - intros H. apply Qnot_le_lt. intros Hle.
    apply Qle_bool_iff in Hle. congruence.
  - intros H. destruct (Qle_bool y x) eqn:E; [|reflexivity].
    apply Qle_bool_iff in E. exfalso. apply (Qlt_not_le _ _ H E).
Qed.

(** The label the two threshold tests of the code select. *)
Lemma tier_code high medium low score :
  (if Py.Qgeb score 70 then high
   else if Py.Qgeb score 40 then medium else low)
  = Spec.tier high medium low score.
Proof.
  unfold Spec.tier.
  destruct (Qlt_le_dec score 40) as [H40|H40];
    [|destruct (Qlt_le_dec score 70) as [H70|H70]].
  - assert (E40 : Py.Qgeb score 40 = false) by (apply Qgeb_false; exact H40).
    assert (E70 : Py.Qgeb score 70 = false) by (apply Qgeb_false; lra).
    rewrite E40, E70. reflexivity.
  - assert (E40 : Py.Qgeb score 40 = true) by (apply Qgeb_true; exact H40).
    assert (E70 : Py.Qgeb score 70 = false) by (apply Qgeb_false; exact H70).
    rewrite E40, E70. reflexivity.
  - assert (E70 : Py.Qgeb score 70 = true) by (apply Qgeb_true; exact H70).
    rewrite E70. reflexivity.
Qed.

Lemma segments_low_churn db now sid :
  Py.Qgeb (predict_churn_risk db now sid) 40 = false ->
  In "low_churn_risk"%string (determine_behavioral_segments db now sid).
Proof.
  intros H40.
  assert (H70 : Py.Qgeb (predict_churn_risk db now sid) 70 = false).
  { apply Qgeb_false. apply Qgeb_false in H40. lra. }
  unfold determine_behavioral_segments. rewrite H40, H70.
  destruct (Py.Qgeb (calculate_engagement_score db now sid 30) 70);
    [|destruct (Py.Qgeb (calculate_engagement_score db now sid 30) 40)];
  (destruct (analyze_content_preferences db sid) as [|kv prefs];
    [|destruct (top_preference_of (kv :: prefs)) as [top|];
      [destruct (Py.contains "stock_analysis" (Py.lower top));
        [|destruct (Py.contains "market" (Py.lower top));
          [|destruct (Py.contains "news" (Py.lower top))]]|]]);
  simpl; tauto.
Qed.

End Segments.

(** C3.  The segment list holds exactly one engagement label, the one the
    thresholds [>= 70] and [>= 40] give for the engagement score, exactly
    one churn label, the one the same thresholds give for the churn risk,
    and at most one content-focus label, none when the preferences are
    empty. *)
Theorem segments_one_label_per_tier db now sid :
  let segments := determine_behavioral_segments db now sid in
  let engagement_score := calculate_engagement_score db now sid 30 in
  let churn_risk := predict_churn_risk db now sid in
  let preferences := analyze_content_preferences db sid in
  Spec.occurrences Spec.engagement_labels segments = 1%nat
  /\ In (Spec.engagement_tier engagement_score) segments
  /\ Spec.occurrences Spec.churn_labels segments = 1%nat
  /\ In (Spec.churn_tier churn_risk) segments
  /\ (Spec.occurrences Spec.focus_labels segments
      <= match preferences with [] => 0 | _ :: _ => 1 end)%nat.
Proof.
  cbv zeta. unfold determine_behavioral_segments.
  unfold Spec.engagement_tier, Spec.churn_tier.
  rewrite <- !tier_code.
  destruct (Py.Qgeb (calculate_engagement_score db now sid 30) 70);
    [|destruct (Py.Qgeb (calculate_engagement_score db now sid 30) 40)];
  (destruct (Py.Qgeb (predict_churn_risk db now sid) 70);
    [|destruct (Py.Qgeb (predict_churn_risk db now sid) 40)]);
  (destruct (analyze_content_preferences db sid) as [|kv prefs];
    [|destruct (top_preference_of (kv :: prefs)) as [top|];
      [destruct (Py.contains "stock_analysis" (Py.lower top));
        [|destruct (Py.contains "market" (Py.lower top));
          [|destruct (Py.contains "news" (Py.lower top))]]|]]);
  cbn [app];
  (split; [reflexivity|split; [simpl; tauto|split; [reflexivity|
   split; [simpl; tauto|vm_compute; lia]]]]).
Qed.

(* ===================================================================== *)
(** ** Content preferences                                                *)
(* ===================================================================== *)

Section Preferences.

Lemma counted_incr d k : counted (Py.incr String.eqb d k) = S (counted d).
Proof.
  unfold Py.incr. induction d as [|[k' n] d IH]; simpl; [reflexivity|].
  destruct (String.eqb k' k); simpl; [reflexivity|].
  rewrite IH. lia.
Qed.

Lemma counted_count_section d e :
  counted (count_section d e)
  = ((if Py.truthy (content_section e) then 1 else 0) + counted d)%nat.
Proof.
  unfold count_section.
  destruct (content_section e) as [sec|]; simpl; [|reflexivity].
  destruct sec; [reflexivity|]. rewrite counted_incr. reflexivity.
Qed.

Lemma counted_fold events : forall d,
  counted (fold_left count_section events d)
  = (Spec.with_section events + counted d)%nat.
Proof.
  unfold Spec.with_section.
  induction events as [|e events IH]; intros d; simpl; [reflexivity|].
  rewrite IH, counted_count_section.
  destruct (Py.truthy (content_section e)); simpl; lia.
Qed.

Lemma of_nat_pos n : (0 < n)%nat -> (0 < Py.of_nat n)%Q.
Proof.
  intros H. unfold Py.of_nat. change 0%Q with (inject_Z 0).
  rewrite <- Zlt_Qlt. lia.
Qed.

End Preferences.

(** C4 (as stated, refuted).  A subscriber with one open, which carries no
    section, and one click in a section has the single preference 50. *)
Lemma preferences_sum_not_100 :
  Spec.events_of db_open_and_click 1 <> []
  /\ ~ (Spec.total (analyze_content_preferences db_open_and_click 1) == 100)%Q.
Proof.
  split; [discriminate|].
  vm_compute. discriminate.
Qed.

(* ===================================================================== *)
(** ** Optimal send time                                                  *)
(* ===================================================================== *)

Section FirstMax.
Context {A : Type} (key : A -> nat).

Lemma max_from_first_max (l : list A) : forall best,
  exists pre post,
    best :: l = pre ++ Py.max_from Nat.ltb key best l :: post
    /\ Forall (fun y => (key y < key (Py.max_from Nat.ltb key best l))%nat) pre
    /\ Forall (fun y => (key y <= key (Py.max_from Nat.ltb key best l))%nat) post.
Proof.
  induction l as [|x l IH]; intros best; simpl.
  - exists [], []. repeat split; constructor.
  - destruct (Nat.ltb_spec (key best) (key x)) as [Hlt|Hge].
    + destruct (IH x) as (pre & post & E & Hpre & Hpost).
      remember (Py.max_from Nat.ltb key x l) as r eqn:Er. clear Er.
      exists (best :: pre), post. rewrite E. repeat split; auto.
      constructor; [|exact Hpre].
      destruct pre as [|p pre]; simpl in E; inversion E; subst.
      * lia.
      * inversion Hpre; subst. lia.
    + destruct (IH best) as (pre & post & E & Hpre & Hpost).
      remember (Py.max_from Nat.ltb key best l) as r eqn:Er. clear Er.
      destruct pre as [|p pre]; simpl in E; inversion E as [[Eb El]].
      * exists [], (x :: post). rewrite <- Eb. repeat split; auto.
        constructor; [lia|]. rewrite Eb. exact Hpost.
      * subst p. exists (best :: x :: pre), post. repeat split; auto.
        inversion Hpre; subst.
        constructor; [assumption|]. constructor; [lia|assumption].
Qed.

Lemma find_first (P : A -> bool) pre r post :
  Forall (fun y => P y = false) pre -> P r = true ->
  find P (pre ++ r :: post) = Some r.
Proof.
  intros Hpre Hr. induction Hpre as [|y pre Hy _ IH]; simpl.
  - rewrite Hr. reflexivity.
  - rewrite Hy. exact IH.
Qed.

End FirstMax.

Lemma max_from_map {A B K} (ltb : K -> K -> bool) (key : B -> K) (g : A -> B) l :
  forall b,
    Py.max_from ltb key (g b) (map g l)
    = g (Py.max_from ltb (fun a => key (g a)) b l).
Proof.
  induction l as [|x l IH]; intros b; simpl; [reflexivity|].
  rewrite <- IH. destruct (ltb (key (g b)) (key (g x))); reflexivity.
Qed.

Section CounterOrder.

Lemma first_seen_In l k : In k (first_seen l) <-> In k l.
Proof.
  induction l as [|x l IH]; simpl; [tauto|].
  rewrite filter_In, IH. split.
  - intros [H|[H _]]; auto.
  - intros [H|H]; [left; exact H|].
    destruct (Z.eq_dec x k) as [E|E]; [left; exact E|].
    right. split; [exact H|]. apply negb_true_iff, Z.eqb_neq. congruence.
Qed.

Lemma first_seen_NoDup l : NoDup (first_seen l).
Proof.
  induction l as [|x l IH]; simpl; constructor.
  - rewrite filter_In. intros [_ H].
    apply negb_true_iff, Z.eqb_neq in H. congruence.
  - apply NoDup_filter. exact IH.
Qed.

Lemma first_seen_snoc l x :
  first_seen (l ++ [x])
  = if existsb (Z.eqb x) l then first_seen l else first_seen l ++ [x].
Proof.
  induction l as [|y l IH]; simpl; [reflexivity|].
  rewrite IH. destruct (existsb (Z.eqb x) l).
  - rewrite orb_true_r. reflexivity.
  - rewrite orb_false_r, filter_app. simpl.
    destruct (x =? y); simpl; [rewrite app_nil_r|]; reflexivity.
Qed.

Lemma find_filter_out (P : Z -> bool) x l :
  P x = false -> find P (filter (fun y => negb (y =? x)) l) = find P l.
Proof.
  intros Hx. induction l as [|y l IH]; simpl; [reflexivity|].
  destruct (Z.eqb_spec y x) as [->|Hne]; simpl.
  - rewrite Hx. exact IH.
  - rewrite IH. reflexivity.
Qed.

Lemma find_first_seen (P : Z -> bool) l : find P (first_seen l) = find P l.
Proof.
  induction l as [|x l IH]; simpl; [reflexivity|].
  destruct (P x) eqn:Hx; [reflexivity|].
  rewrite find_filter_out by exact Hx. exact IH.
Qed.

Lemma incr_present (d : list (Z * nat)) x :
  NoDup (map fst d) -> In x (map fst d) ->
  Py.incr Z.eqb d x
  = map (fun kn => (fst kn, if fst kn =? x then S (snd kn) else snd kn)) d.
Proof.
  unfold Py.incr. induction d as [|[k n] d IH]; simpl; [tauto|].
  intros Hnd Hin. inversion Hnd as [|? ? Hk Hnd']; subst.
  destruct (Z.eqb_spec k x) as [->|Hne].
  - f_equal. symmetry. erewrite map_ext_in; [apply map_id|].
    intros [k' n'] Hin'. simpl.
    destruct (Z.eqb_spec k' x) as [->|_]; [|reflexivity].
    exfalso. apply Hk. change x with (fst (x, n')). apply in_map. exact Hin'.
  - f_equal. apply IH; [exact Hnd'|]. destruct Hin; [contradiction|assumption].
Qed.

Lemma incr_absent (d : list (Z * nat)) x :
  ~ In x (map fst d) -> Py.incr Z.eqb d x = d ++ [(x, 1%nat)].
Proof.
  unfold Py.incr. induction d as [|[k n] d IH]; simpl; [reflexivity|].
  intros Hin. destruct (Z.eqb_spec k x) as [->|Hne]; [tauto|].
  f_equal. apply IH. tauto.
Qed.

Lemma occ_snoc l x k :
  Spec.occ (l ++ [x]) k = ((if (k =? x)%Z then 1 else 0) + Spec.occ l k)%nat.
Proof.
  unfold Spec.occ. rewrite count_occ_app. simpl.
  destruct (Z.eq_dec x k) as [->|Hne].
  - rewrite Z.eqb_refl. lia.
  - destruct (Z.eqb_spec k x); [congruence|lia].
Qed.

Lemma existsb_eqb_In x l : existsb (Z.eqb x) l = true <-> In x l.
Proof.
  rewrite existsb_exists. split.
  - intros (y & Hy & E). apply Z.eqb_eq in E. congruence.
  - intros H. exists x. split; [exact H|apply Z.eqb_refl].
Qed.

Lemma Counter_first_seen l :
  Py.Counter Z.eqb l = map (fun k => (k, Spec.occ l k)) (first_seen l).
Proof.
  induction l as [|x l IH] using rev_ind; [reflexivity|].
  unfold Py.Counter in *. rewrite fold_left_app. simpl. rewrite IH.
  rewrite first_seen_snoc.
  destruct (existsb (Z.eqb x) l) eqn:E.
  - apply existsb_eqb_In in E.
    rewrite incr_present.
    + rewrite map_map. apply map_ext. intros k. simpl.
      rewrite occ_snoc. destruct (k =? x); reflexivity.
    + rewrite map_map. simpl. rewrite map_id. apply first_seen_NoDup.
    + rewrite map_map. simpl. rewrite map_id. apply first_seen_In. exact E.
  - assert (Hx : ~ In x l).
    { intros H. apply existsb_eqb_In in H. congruence. }
    rewrite incr_absent.
    + rewrite map_app. simpl. f_equal.
      * apply map_ext_in. intros k Hk. rewrite occ_snoc.
        destruct (Z.eqb_spec k x) as [->|_]; [|reflexivity].
        apply (proj1 (first_seen_In _ _)) in Hk. contradiction.
      * rewrite occ_snoc, Z.eqb_refl. unfold Spec.occ.
        rewrite (proj1 (count_occ_not_In Z.eq_dec l x) Hx). reflexivity.
    + rewrite map_map. simpl. rewrite map_id. rewrite first_seen_In. exact Hx.
Qed.

Lemma most_frequent_true hours r :
  (forall y, In y hours -> (Spec.occ hours y <= Spec.occ hours r)%nat) ->
  Spec.most_frequent hours r = true.
Proof.
  intros H. unfold Spec.most_frequent. apply forallb_forall.
  intros y Hy. apply Nat.leb_le. apply H. exact Hy.
Qed.

Lemma most_frequent_false hours r y :
  In r hours -> (Spec.occ hours y < Spec.occ hours r)%nat ->
  Spec.most_frequent hours y = false.
Proof.
  intros Hr Hlt. unfold Spec.most_frequent.
  destruct (forallb _ hours) eqn:E; [|reflexivity].
  rewrite forallb_forall in E. specialize (E r Hr).
  apply Nat.leb_le in E. lia.
Qed.

Lemma most_common_hour_first hours :
  most_common_hour hours = Spec.first_most_frequent hours.
Proof.
  unfold most_common_hour, Py.most_common_1, Spec.first_most_frequent.
  rewrite Counter_first_seen, <- find_first_seen.
  destruct (first_seen hours) as [|h ks] eqn:Efs; [reflexivity|].
  simpl map. unfold Py.max_by.
  rewrite (max_from_map Nat.ltb snd (fun k => (k, Spec.occ hours k)) ks h).
  simpl snd.
  destruct (max_from_first_max (Spec.occ hours) ks h)
    as (pre & post & E & Hpre & Hpost).
  remember (Py.max_from Nat.ltb (fun a => Spec.occ hours a) h ks) as r eqn:Er.
  clear Er. rewrite E.
  assert (Hr : In r hours).
  { apply first_seen_In. rewrite Efs, E. apply in_elt. }
  symmetry. apply find_first.
  - rewrite Forall_forall in *. intros y Hy.
    apply (most_frequent_false hours r y Hr). apply Hpre. exact Hy.
  - apply most_frequent_true. intros y Hy.
    apply (proj2 (first_seen_In _ _)) in Hy. rewrite Efs, E in Hy.
    apply in_app_or in Hy. rewrite Forall_forall in Hpre, Hpost.
    destruct Hy as [Hy|[Hy|Hy]].
    + apply Nat.lt_le_incl. apply Hpre. exact Hy.
    + subst y. lia.
    + apply Hpost. exact Hy.
Qed.

End CounterOrder.

Lemma hour_range t : 0 <= Py.hour t < 24.
Proof. unfold Py.hour. apply Z.mod_pos_bound. lia. Qed.

Lemma fmt_hour h : 0 <= h < 24 -> (Py.fmt_02d h ++ ":00")%string = Spec.hh00 h.
Proof.
  intros H.
  assert (E : h = 0 \/ h = 1 \/ h = 2 \/ h = 3 \/ h = 4 \/ h = 5 \/ h = 6 \/ h = 7
           \/ h = 8 \/ h = 9 \/ h = 10 \/ h = 11 \/ h = 12 \/ h = 13 \/ h = 14
           \/ h = 15 \/ h = 16 \/ h = 17 \/ h = 18 \/ h = 19 \/ h = 20 \/ h = 21
           \/ h = 22 \/ h = 23) by lia.
  repeat (destruct E as [->|E]; [reflexivity|]). subst h. reflexivity.
Qed.

Lemma recent_opens_fetch db now sid :
  filter (fun e => (ev_subscriber_id e =? sid)
                   && is_type "email_open" e
                   && (now - Py.timedelta 30 <=? timestamp e))
         (engagement_events db)
  = Spec.recent_opens db now sid.
Proof. reflexivity. Qed.

Lemma send_time_code db now sid :
  compute_optimal_send_time db now sid
  = match Spec.open_hours db now sid with
    | [] => "09:00"%string
    | _ :: _ =>
        match Spec.first_most_frequent (Spec.open_hours db now sid) with
        | Some h => (Py.fmt_02d h ++ ":00")%string
        | None => "09:00"%string
        end
    end.
Proof.
  unfold compute_optimal_send_time, Spec.open_hours.
  rewrite recent_opens_fetch.
  destruct (Spec.recent_opens db now sid) as [|e opens]; [reflexivity|].
  rewrite most_common_hour_first. reflexivity.
Qed.

Lemma first_most_frequent_some h hours :
  exists r, Spec.first_most_frequent (h :: hours) = Some r
            /\ In r (h :: hours)
            /\ Spec.most_frequent (h :: hours) r = true.
Proof.
  destruct (Spec.first_most_frequent (h :: hours)) as [r|] eqn:E.
  - exists r. split; [reflexivity|].
    unfold Spec.first_most_frequent in E. apply find_some in E. exact E.
  - exfalso. rewrite <- most_common_hour_first in E.
    unfold most_common_hour, Py.most_common_1 in E.
    rewrite Counter_first_seen in E. simpl first_seen in E. simpl map in E.
    unfold Py.max_by in E. destruct (Py.max_from _ _ _ _) in E. discriminate.
Qed.

(** C5 (as stated, refuted).  Of two recent opens, the first at 10 h and the
    second at 8 h, both hours have the highest count; the lowest of them is
    8 but the stored send time is "10:00". *)
Lemma send_time_tie_not_lowest_hour :
  Spec.open_hours db_opens_10_then_8 now_1000 1 = [10; 8]
  /\ Spec.lowest_most_frequent [10; 8] = Some 8
  /\ optimal_send_time (snd (update_subscriber_profile db_opens_10_then_8 now_1000 1))
     = Some "10:00"%string.
Proof. repeat split. Qed.

(** C5 (amended).  The profile's send time is "09:00" when the subscriber
    has no [email_open] event since 30 days before the call; otherwise it is
    "HH:00" for the hour (0-23) of highest count among those events, a tie
    between equally frequent hours going to the hour that occurs first in
    the fetched events. *)
Theorem optimal_send_time_first_most_frequent db now sid :
  let hours := Spec.open_hours db now sid in
  let time := optimal_send_time (snd (update_subscriber_profile db now sid)) in
  match hours with
  | [] => time = Some "09:00"%string
  | _ :: _ =>
      exists h, Spec.first_most_frequent hours = Some h
                /\ Spec.most_frequent hours h = true
                /\ 0 <= h < 24
                /\ time = Some (Spec.hh00 h)
  end.
Proof.
  cbv zeta. unfold update_subscriber_profile. simpl snd. simpl optimal_send_time.
  rewrite send_time_code.
  destruct (Spec.open_hours db now sid) as [|h hours] eqn:E; [reflexivity|].
  destruct (first_most_frequent_some h hours) as (r & Hr & Hin & Hmax).
  exists r. rewrite Hr.
  assert (Hrange : 0 <= r < 24).
  { rewrite <- E in Hin. unfold Spec.open_hours in Hin.
    apply in_map_iff in Hin. destruct Hin as (e & <- & _). apply hour_range. }
  repeat split; try assumption; try lia.
  rewrite fmt_hour by exact Hrange. reflexivity.
Qed.

(* ===================================================================== *)
(** ** Profile rebuild                                                    *)
(* ===================================================================== *)

Section ProfileTable.

Lemma find_upsert row table :
  find (fun p => subscriber_id p =? subscriber_id row) (upsert row table)
  = Some row.
Proof.
  induction table as [|p table IH]; simpl.
  - rewrite Z.eqb_refl. reflexivity.
  - destruct (subscriber_id p =? subscriber_id row) eqn:E; simpl.
    + rewrite Z.eqb_refl. reflexivity.
    + rewrite E. exact IH.
Qed.

Lemma find_upsert_same row table sid :
  subscriber_id row = sid ->
  find (fun p => subscriber_id p =? sid) (upsert row table) = Some row.
Proof. intros <-. apply find_upsert. Qed.

Lemma find_upsert_other row table sid :
  sid <> subscriber_id row ->
  find (fun p => subscriber_id p =? sid) (upsert row table)
  = find (fun p => subscriber_id p =? sid) table.
Proof.
  intros Hne. induction table as [|p table IH]; simpl.
  - destruct (Z.eqb_spec (subscriber_id row) sid); [congruence|reflexivity].
  - destruct (Z.eqb_spec (subscriber_id p) (subscriber_id row)) as [E|E]; simpl.
    + rewrite E.
      destruct (Z.eqb_spec (subscriber_id row) sid); [congruence|reflexivity].
    + rewrite IH. reflexivity.
Qed.

Lemma profile_row_id db sid :
  subscriber_id (match get_profile db sid with
                 | Some profile => profile
                 | None => new_profile sid
                 end) = sid.
Proof.
  destruct (get_profile db sid) as [p|] eqn:E; [|reflexivity].
  unfold get_profile in E. apply find_some in E.
  destruct E as [_ E]. apply Z.eqb_eq in E. exact E.
Qed.

Lemma rebuilt_id db now sid :
  subscriber_id (snd (update_subscriber_profile db now sid)) = sid.
Proof. unfold update_subscriber_profile. simpl. apply profile_row_id. Qed.

(** The returned profile is the row stored for the subscriber. *)
Lemma rebuilt_stored db now sid :
  get_profile (fst (update_subscriber_profile db now sid)) sid
  = Some (snd (update_subscriber_profile db now sid)).
Proof.
  unfold get_profile at 1. unfold update_subscriber_profile.
  cbn [fst snd subscriber_profiles]. apply find_upsert_same.
  cbn [subscriber_id]. apply profile_row_id.
Qed.

Lemma rebuilt_others db now sid sid' :
  sid' <> sid ->
  get_profile (fst (update_subscriber_profile db now sid)) sid'
  = get_profile db sid'.
Proof.
  intros Hne. unfold get_profile, update_subscriber_profile.
  cbn [fst snd subscriber_profiles]. apply find_upsert_other.
  cbn [subscriber_id]. rewrite profile_row_id. exact Hne.
Qed.

Lemma churn_unknown db now sid :
  get_subscriber db sid = None -> predict_churn_risk db now sid = 0%Q.
Proof. intros H. unfold predict_churn_risk. rewrite H. reflexivity. Qed.

End ProfileTable.

(** C6 (as stated, refuted).  Subscriber 7 is not in the registry and has
    no profile row; the rebuild returns a profile and leaves a row for 7 in
    the profile table. *)
Lemma rebuild_unknown_creates_row :
  get_subscriber db_dormant 7 = None
  /\ get_profile db_dormant 7 = None
  /\ exists db' profile,
       update_subscriber_profile db_dormant now_1000 7 = (db', profile)
       /\ get_profile db' 7 = Some profile.
Proof.
  split; [reflexivity|]. split; [reflexivity|].
  eexists. eexists. split; reflexivity.
Qed.

(** C6 (amended).  For a subscriber id that is not in the registry the
    rebuild does not fail: the churn risk is scored 0, the segments contain
    [low_churn_risk], and the profile row of that id is created or
    overwritten with the returned profile; the registry, the events and the
    rows of other subscribers are left as they were. *)
Theorem rebuild_unknown_subscriber db now sid :
  get_subscriber db sid = None ->
  let db' := fst (update_subscriber_profile db now sid) in
  let profile := snd (update_subscriber_profile db now sid) in
  get_profile db' sid = Some profile
  /\ subscriber_id profile = sid
  /\ churn_risk_score profile = 0%Q
  /\ In "low_churn_risk"%string (behavioral_segments profile)
  /\ subscribers db' = subscribers db
  /\ engagement_events db' = engagement_events db
  /\ (forall sid', sid' <> sid -> get_profile db' sid' = get_profile db sid').
Proof.
  intros Hunknown. cbv zeta.
  split; [apply rebuilt_stored|].
  split; [apply rebuilt_id|].
  split; [apply churn_unknown; exact Hunknown|].
  split; [|split; [reflexivity|split; [reflexivity|]]].
  - pose proof (segments_low_churn db now sid) as H.
    unfold update_subscriber_profile. simpl. apply H.
    rewrite churn_unknown by exact Hunknown. reflexivity.
  - intros sid' Hne. apply rebuilt_others. exact Hne.
Qed.

Lemma rebuild_unknown_subscriber_witness :
  get_subscriber db_dormant 7 = None
  /\ get_profile (fst (update_subscriber_profile db_dormant now_1000 7)) 7
     = Some (snd (update_subscriber_profile db_dormant now_1000 7)).
Proof.
  split; [reflexivity|].
  apply (rebuild_unknown_subscriber db_dormant now_1000 7 eq_refl).
Defined.

(* ===================================================================== *)
(** ** Content order                                                      *)
(* ===================================================================== *)

Section StableSort.
Context {A : Type} (key : A -> Q).








End StableSort.



(* ===================================================================== *)
(** ** Profile table under rebuilds                                       *)
(* ===================================================================== *)

Section RebuildTable.

Lemma upsert_twice row table : upsert row (upsert row table) = upsert row table.
Proof.
  induction table as [|p table IH]; simpl.
  - rewrite Z.eqb_refl. reflexivity.
  - destruct (subscriber_id p =? subscriber_id row) eqn:E; simpl.
    + rewrite Z.eqb_refl. reflexivity.
    + rewrite E, IH. reflexivity.
Qed.




(** The rebuilt row and the table it is written to. *)
Lemma update_shape db now sid :
  update_subscriber_profile db now sid
  = let row :=
      {| subscriber_id := sid;
         engagement_score := calculate_engagement_score db now sid 30;
         content_preferences := analyze_content_preferences db sid;
         behavioral_segments := determine_behavioral_segments db now sid;
         churn_risk_score := predict_churn_risk db now sid;
         optimal_send_time := Some (compute_optimal_send_time db now sid);
         last_updated := Some now |} in
    ({| subscribers := subscribers db;
        engagement_events := engagement_events db;
        subscriber_profiles := upsert row (subscriber_profiles db) |}, row).
Proof.
  unfold update_subscriber_profile. rewrite profile_row_id. reflexivity.
Qed.

End RebuildTable.

(** X1.  Rebuilding a profile a second time at the same instant changes
    nothing: the same profile is returned and the database is the one the
    first rebuild left. *)
Theorem rebuild_idempotent db now sid :
  let first := update_subscriber_profile db now sid in
  update_subscriber_profile (fst first) now sid = first.
Proof.
  cbv zeta. rewrite (update_shape db now sid). cbv zeta. cbn [fst].
  rewrite update_shape. cbv zeta.
  cbn [subscribers engagement_events subscriber_profiles].
  f_equal. f_equal. apply upsert_twice.
Qed.



(* ===================================================================== *)
(** ** Churn risk of active and of new subscribers                        *)
(* ===================================================================== *)

Section ChurnCases.

Lemma filter_none {A} (p : A -> bool) l :
  (forall x, In x l -> p x = false) -> filter p l = [].
Proof.
  induction l as [|x l IH]; intros H; simpl; [reflexivity|].
  rewrite (H x (or_introl eq_refl)). apply IH.
  intros y Hy. apply H. right. exact Hy.
Qed.

Lemma filter_nil_none {A} (p : A -> bool) l :
  filter p l = [] -> forall x, In x l -> p x = false.
Proof.
  intros H x Hx. destruct (p x) eqn:E; [|reflexivity].
  assert (Hin : In x (filter p l)) by (apply filter_In; auto).
  rewrite H in Hin. destruct Hin.
Qed.

(** Without events of the subscriber every query on the subscriber's
    events is empty. *)
Lemma no_events_no_rows db sid (q : EngagementEvent -> bool) :
  Spec.events_of db sid = [] ->
  (forall e, q e = true -> (ev_subscriber_id e =? sid) = true) ->
  filter q (engagement_events db) = [].
Proof.
  intros Hnone Hq. apply filter_none. intros e He.
  destruct (q e) eqn:E; [|reflexivity].
  apply Hq in E.
  rewrite (filter_nil_none _ _ Hnone e He) in E. discriminate.
Qed.







(** The code of [predict_churn_risk] for a subscriber of the registry. *)
Lemma churn_code db now sid subscriber :
  get_subscriber db sid = Some subscriber ->
  predict_churn_risk db now sid
  = match risk_factors_of
            (match latest_event (Spec.events_of db sid) with
             | Some e => Py.days (now - timestamp e)
             | None => Py.days (now - signup_date subscriber)
             end)
            (Z.of_nat (List.length (Spec.since db now sid 14)))
            (Py.days (now - signup_date subscriber)) with
    | [] => 10%Q
    | r :: rs => Qmin (inject_Z (Py.sum (r :: rs))) 100
    end.
Proof.
  intros H. unfold predict_churn_risk. rewrite H.
  fold (Spec.events_of db sid).
  change (filter (fun e => (ev_subscriber_id e =? sid)
                           && (now - Py.timedelta 14 <=? timestamp e))
                 (engagement_events db)) with (Spec.since db now sid 14).
  destruct (risk_factors_of _ _ _); reflexivity.
Qed.

End ChurnCases.



(** X4.  The first profile of a subscriber who signed up at most 7 days ago
    and has no event yet: engagement 0, no preferences, churn risk 80 (low
    activity 30 plus newcomer 50), segments [low_engagement] and
    [high_churn_risk], send time "09:00". *)
Theorem first_profile_of_newcomer db now sid subscriber :
  get_subscriber db sid = Some subscriber ->
  Spec.events_of db sid = [] ->
  Py.days (now - signup_date subscriber) <= 7 ->
  let profile := snd (update_subscriber_profile db now sid) in
  engagement_score profile = 0%Q
  /\ content_preferences profile = []
  /\ churn_risk_score profile = 80%Q
  /\ behavioral_segments profile = ["low_engagement"; "high_churn_risk"]%string
  /\ optimal_send_time profile = Some "09:00"%string.
Proof.
  intros Hsub Hnone Hnew. cbv zeta. rewrite update_shape. cbv zeta. cbn [snd].
  cbn [engagement_score content_preferences churn_risk_score
       behavioral_segments optimal_send_time].
  assert (Hscore : calculate_engagement_score db now sid 30 = 0%Q).
  { unfold calculate_engagement_score.
    rewrite (no_events_no_rows db sid); [reflexivity|exact Hnone|].
    intros e H. apply andb_true_iff in H. tauto. }
  assert (Hprefs : analyze_content_preferences db sid = []).
  { unfold analyze_content_preferences.
    fold (Spec.events_of db sid). rewrite Hnone. reflexivity. }
  assert (Hrisk : predict_churn_risk db now sid = 80%Q).
  { rewrite (churn_code db now sid subscriber Hsub).
    unfold Spec.since. rewrite (no_events_no_rows db sid); [|exact Hnone|].
    - rewrite Hnone. simpl latest_event. simpl List.length.
      unfold risk_factors_of.
      assert (E1 : (14 <? Py.days (now - signup_date subscriber)) = false)
        by (apply Z.ltb_ge; lia).
      assert (E2 : (Py.days (now - signup_date subscriber) <=? 7) = true)
        by (apply Z.leb_le; lia).
      assert (E3 : (90 <? Py.days (now - signup_date subscriber)) = false)
        by (apply Z.ltb_ge; lia).
      rewrite E1, E2, E3. reflexivity.
    - intros e H. apply andb_true_iff in H. tauto. }
  assert (Htime : compute_optimal_send_time db now sid = "09:00"%string).
  { unfold compute_optimal_send_time.
    rewrite (no_events_no_rows db sid); [reflexivity|exact Hnone|].
    intros e H. apply andb_true_iff in H. destruct H as [H _].
    apply andb_true_iff in H. tauto. }
  repeat split; try assumption.
  - unfold determine_behavioral_segments. rewrite Hscore, Hrisk, Hprefs.
    reflexivity.
  - rewrite Htime. reflexivity.
Qed.

Lemma first_profile_of_newcomer_witness :
  get_subscriber db_newcomer 2 = Some newcomer
  /\ Spec.events_of db_newcomer 2 = []
  /\ Py.days (now_1000 - signup_date newcomer) <= 7
  /\ churn_risk_score (snd (update_subscriber_profile db_newcomer now_1000 2))
     = 80%Q.
Proof.
  assert (H1 : get_subscriber db_newcomer 2 = Some newcomer) by reflexivity.
  assert (H2 : Spec.events_of db_newcomer 2 = []) by reflexivity.
  assert (H3 : Py.days (now_1000 - signup_date newcomer) <= 7)
    by (vm_compute; discriminate).
  split; [exact H1|]. split; [exact H2|]. split; [exact H3|].
  apply (first_profile_of_newcomer db_newcomer now_1000 2 newcomer H1 H2 H3).
Defined.

(* ===================================================================== *)
(** ** Engagement score: clicks without opens, and the full score         *)
(* ===================================================================== *)

Section ScoreCases.

Lemma segments_low_engagement db now sid :
  Py.Qgeb (calculate_engagement_score db now sid 30) 40 = false ->
  hd_error (determine_behavioral_segments db now sid)
  = Some "low_engagement"%string.
Proof.
  intros H40.
  assert (H70 : Py.Qgeb (calculate_engagement_score db now sid 30) 70 = false).
  { apply Qgeb_false. apply Qgeb_false in H40. lra. }
  unfold determine_behavioral_segments. rewrite H40, H70.
  destruct (Py.Qgeb (predict_churn_risk db now sid) 70);
    [|destruct (Py.Qgeb (predict_churn_risk db now sid) 40)];
  (destruct (analyze_content_preferences db sid) as [|kv prefs];
    [|destruct (top_preference_of (kv :: prefs)) as [top|];
      [destruct (Py.contains "stock_analysis" (Py.lower top));
        [|destruct (Py.contains "market" (Py.lower top));
          [|destruct (Py.contains "news" (Py.lower top))]]|]]);
  reflexivity.
Qed.

Lemma rate_one n t :
  0 < t -> (Spec.rate n t == 1)%Q <-> t <= Z.of_nat n.
Proof.
  intros Ht. unfold Spec.rate. rewrite Q.min_r_iff.
  assert (Hpos : (0 < inject_Z t)%Q).
  { change 0%Q with (inject_Z 0). rewrite <- Zlt_Qlt. exact Ht. }
  rewrite <- (Qmult_le_r 1 (inject_Z (Z.of_nat n) / inject_Z t) (inject_Z t) Hpos).
  assert (E : (inject_Z (Z.of_nat n) / inject_Z t * inject_Z t
               == inject_Z (Z.of_nat n))%Q) by (field; lra).
  rewrite E, Qmult_1_l, <- Zle_Qle. reflexivity.
Qed.

End ScoreCases.

(** X5.  Clicks count only when there is an open: without an open in the
    window the score is 30 times the view rate, whatever the number of
    clicks, and so at most 30. *)
Theorem clicks_need_an_open db now sid days :
  let events := Spec.since db now sid days in
  Spec.count "email_open" events = 0%nat ->
  (calculate_engagement_score db now sid days
   == if Z.min days 30 =? 0 then 0
      else 30 * Spec.rate (Spec.count "content_view" events) (Z.min days 30))%Q
  /\ (calculate_engagement_score db now sid days <= 30)%Q.
Proof.
  cbv zeta. intros Hopens.
  pose proof (score_since db now sid days) as E. cbv zeta in E.
  rewrite Hopens in E. unfold score_of_counts, Spec.engagement_formula in E.
  assert (Hv := rate_le_1 (Spec.count "content_view" (Spec.since db now sid days))
                          (Z.min days 30)).
  assert (E' : (calculate_engagement_score db now sid days
                == if Z.min days 30 =? 0 then 0
                   else 30 * Spec.rate (Spec.count "content_view"
                                          (Spec.since db now sid days))
                                       (Z.min days 30))%Q).
  { rewrite E. destruct (Z.min days 30 =? 0); [reflexivity|].
    rewrite rate_0. rewrite Q.min_l; [ring | lra]. }
  split; [exact E'|].
  rewrite E'. destruct (Z.min days 30 =? 0); lra.
Qed.

Lemma clicks_need_an_open_witness :
  Spec.count "email_open" (Spec.since db_clicks_only now_1000 1 30) = 0%nat
  /\ (calculate_engagement_score db_clicks_only now_1000 1 30 <= 30)%Q.
Proof.
  assert (H : Spec.count "email_open" (Spec.since db_clicks_only now_1000 1 30)
              = 0%nat) by reflexivity.
  split; [exact H|].
  apply (clicks_need_an_open db_clicks_only now_1000 1 30 H).
Defined.

(** X6.  A subscriber without an open in the last 30 days is labelled
    [low_engagement], however many clicks and views there are. *)
Theorem no_open_low_engagement db now sid :
  Spec.count "email_open" (Spec.since db now sid 30) = 0%nat ->
  hd_error (determine_behavioral_segments db now sid)
  = Some "low_engagement"%string.
Proof.
  intros Hopens. apply segments_low_engagement. apply Qgeb_false.
  pose proof (score_since db now sid 30) as E. cbv zeta in E.
  rewrite Hopens in E. unfold score_of_counts, Spec.engagement_formula in E.
  simpl (Z.min 30 30 =? 0) in E. cbv iota in E.
  assert (Hv := rate_le_1 (Spec.count "content_view" (Spec.since db now sid 30))
                          (Z.min 30 30)).
  rewrite E, rate_0.
  apply Qle_lt_trans with (30 * 0 + 40 * 0 + 30 * 1)%Q; [|reflexivity].
  eapply Qle_trans; [apply Q.le_min_l|]. lra.
Qed.

Lemma no_open_low_engagement_witness :
  Spec.count "email_open" (Spec.since db_clicks_only now_1000 1 30) = 0%nat
  /\ hd_error (determine_behavioral_segments db_clicks_only now_1000 1)
     = Some "low_engagement"%string.
Proof.
  assert (H : Spec.count "email_open" (Spec.since db_clicks_only now_1000 1 30)
              = 0%nat) by reflexivity.
  split; [exact H|].
  apply (no_open_low_engagement db_clicks_only now_1000 1 H).
Defined.

(** X7.  For a window of [days > 0] the score is 100 exactly when the
    opens, the clicks and the views each number at least
    [min(days, 30)]. *)
Theorem full_score db now sid days :
  0 < days ->
  let events := Spec.since db now sid days in
  let total_emails := Z.min days 30 in
  (calculate_engagement_score db now sid days == 100)%Q
  <-> total_emails <= Z.of_nat (Spec.count "email_open" events)
      /\ total_emails <= Z.of_nat (Spec.count "link_click" events)
      /\ total_emails <= Z.of_nat (Spec.count "content_view" events).
Proof.
  intros Hd. cbv zeta.
  pose proof (score_since db now sid days) as E. cbv zeta in E.
  rewrite E. clear E. unfold score_of_counts.
  assert (Ht : 0 < Z.min days 30) by lia.
  destruct (Z.eqb_spec (Z.min days 30) 0) as [E0|_]; [lia|].
  unfold Spec.engagement_formula.
  set (o := Spec.count "email_open" (Spec.since db now sid days)).
  set (c := Spec.count "link_click" (Spec.since db now sid days)).
  set (v := Spec.count "content_view" (Spec.since db now sid days)).
  rewrite <- (rate_one o _ Ht), <- (rate_one c _ Ht), <- (rate_one v _ Ht).
  pose proof (rate_le_1 o (Z.min days 30)) as Ho.
  pose proof (rate_le_1 c (Z.min days 30)) as Hc.
  pose proof (rate_le_1 v (Z.min days 30)) as Hv.
  pose proof (rate_0 (Z.min days 30)) as H0.
  rewrite Q.min_r_iff.
  destruct o as [|o'].
  - split.
    + intros H. exfalso. lra.
    + intros (H & _). exfalso. lra.
  - split.
    + intros H. repeat split; lra.
    + intros (H1 & H2 & H3). lra.
Qed.

Lemma full_score_witness :
  0 < 1
  /\ ((calculate_engagement_score db_one_open now_1000 1 1 == 100)%Q -> False).
Proof.
  assert (H : 0 < 1) by lia.
  split; [exact H|].
  intros E. apply (full_score db_one_open now_1000 1 1 H) in E.
  vm_compute in E. destruct E as (_ & E & _). apply E. reflexivity.
Defined.

(* ===================================================================== *)
(** ** Content preferences: lookup, bounds, single section                *)
(* ===================================================================== *)

Section PreferenceTable.

Lemma get_incr (d : list (string * nat)) k k' :
  Py.get String.eqb (Py.incr String.eqb d k) k'
  = if String.eqb k k'
    then Some (S (Py.get_default String.eqb d k' 0%nat))
    else Py.get String.eqb d k'.
Proof.
  unfold Py.incr, Py.get_default.
  induction d as [|[k0 n] d IH]; simpl.
  - destruct (String.eqb k k'); reflexivity.
  - destruct (String.eqb_spec k0 k) as [->|Hne]; simpl.
    + destruct (String.eqb k k'); reflexivity.
    + destruct (String.eqb_spec k0 k') as [->|Hne'].
      * destruct (String.eqb_spec k k'); [congruence|reflexivity].
      * exact IH.
Qed.

Lemma truthy_some s : Py.truthy (Some s) = negb (String.eqb s "").
Proof. destruct s; reflexivity. Qed.

Lemma get_count_section d e s :
  Py.get String.eqb (count_section d e) s
  = if match content_section e with
       | Some s' => negb (String.eqb s' "") && String.eqb s' s
       | None => false
       end
    then Some (S (Py.get_default String.eqb d s 0%nat))
    else Py.get String.eqb d s.
Proof.
  unfold count_section. destruct (content_section e) as [s'|]; [|reflexivity].
  rewrite truthy_some. destruct (negb (String.eqb s' "")); [|reflexivity].
  rewrite get_incr. reflexivity.
Qed.

Lemma get_fold events s : forall d,
  Py.get String.eqb (fold_left count_section events d) s
  = match Facts.in_section s events with
    | O => Py.get String.eqb d s
    | S _ =>
        Some (Py.get_default String.eqb d s 0 + Facts.in_section s events)%nat
    end.
Proof.
  unfold Facts.in_section.
  induction events as [|e events IH]; intros d; [reflexivity|].
  cbn [fold_left filter]. rewrite IH.
  pose proof (get_count_section d e s) as G.
  unfold Py.get_default at 1. rewrite G.
  destruct (match content_section e with
            | Some s' => negb (String.eqb s' "") && String.eqb s' s
            | None => false
            end); cbn [List.length].
  - destruct (List.length _); f_equal; lia.
  - destruct (List.length _); reflexivity.
Qed.

Lemma get_map {V W} (f : V -> W) (d : list (string * V)) s :
  Py.get String.eqb (map (fun kv : string * V => let (k, v) := kv in (k, f v)) d) s
  = option_map f (Py.get String.eqb d s).
Proof.
  induction d as [|[k v] d IH]; simpl; [reflexivity|].
  destruct (String.eqb k s); [reflexivity|exact IH].
Qed.

Lemma incr_keys (d : list (string * nat)) k :
  map fst (Py.incr String.eqb d k)
  = if existsb (String.eqb k) (map fst d) then map fst d
    else map fst d ++ [k].
Proof.
  unfold Py.incr. induction d as [|[k0 n] d IH]; simpl; [reflexivity|].
  rewrite (String.eqb_sym k k0).
  destruct (String.eqb k0 k); simpl; [reflexivity|].
  rewrite IH. destruct (existsb (String.eqb k) (map fst d)); reflexivity.
Qed.

Lemma incr_NoDup (d : list (string * nat)) k :
  NoDup (map fst d) -> NoDup (map fst (Py.incr String.eqb d k)).
Proof.
  intros Hnd. rewrite incr_keys.
  destruct (existsb (String.eqb k) (map fst d)) eqn:E; [exact Hnd|].
  apply NoDup_app; [exact Hnd | repeat constructor; simpl; tauto |].
  intros x Hx [<-|[]].
  assert (Ht : existsb (String.eqb k) (map fst d) = true).
  { apply existsb_exists. exists k. split; [exact Hx|apply String.eqb_refl]. }
  congruence.
Qed.

Lemma incr_pos (d : list (string * nat)) k :
  Forall (fun kn => (0 < snd kn)%nat) d ->
  Forall (fun kn => (0 < snd kn)%nat) (Py.incr String.eqb d k).
Proof.
  unfold Py.incr. induction 1 as [|[k0 m] d Hm Hd IH]; simpl.
  - repeat constructor.
  - destruct (String.eqb k0 k); constructor; simpl; try assumption; lia.
Qed.

Lemma count_section_inv d e :
  NoDup (map fst d) /\ Forall (fun kn => (0 < snd kn)%nat) d ->
  NoDup (map fst (count_section d e))
  /\ Forall (fun kn => (0 < snd kn)%nat) (count_section d e).
Proof.
  intros [Hnd Hpos]. unfold count_section.
  destruct (Py.truthy (content_section e)); [|auto].
  destruct (content_section e); [|auto].
  split; [apply incr_NoDup | apply incr_pos]; assumption.
Qed.

Lemma fold_inv events : forall d,
  NoDup (map fst d) /\ Forall (fun kn => (0 < snd kn)%nat) d ->
  NoDup (map fst (fold_left count_section events d))
  /\ Forall (fun kn => (0 < snd kn)%nat) (fold_left count_section events d).
Proof.
  induction events as [|e events IH]; intros d H; [exact H|].
  simpl. apply IH. apply count_section_inv. exact H.
Qed.

Lemma In_le_counted (d : list (string * nat)) s n :
  In (s, n) d -> (n <= counted d)%nat.
Proof.
  induction d as [|[k m] d IH]; simpl; [tauto|].
  intros [E|H]; [inversion E; lia|].
  specialize (IH H). lia.
Qed.

Lemma with_section_le events :
  (Spec.with_section events <= List.length events)%nat.
Proof. unfold Spec.with_section. apply filter_length_le. Qed.

End PreferenceTable.

(** X8.  The preference stored for a section is 100 times the share of the
    subscriber's events that carry that section; a section no event carries
    has no entry. *)
Theorem preference_of_section db sid s :
  let events := Spec.events_of db sid in
  Py.get String.eqb (analyze_content_preferences db sid) s
  = match Facts.in_section s events with
    | O => None
    | S _ =>
        Some (Py.of_nat (Facts.in_section s events)
              / Py.of_nat (List.length events) * 100)%Q
    end.
Proof.
  cbv zeta. unfold analyze_content_preferences.
  fold (Spec.events_of db sid).
  destruct (Spec.events_of db sid) as [|e events] eqn:E; [reflexivity|].
  rewrite (get_map (fun count => (Py.of_nat count
                                  / Py.of_nat (List.length (e :: events)) * 100)%Q)).
  rewrite get_fold.
  destruct (Facts.in_section s (e :: events)); reflexivity.
Qed.

(** X9.  The preferences have one entry per section, and every value lies
    in (0, 100]. *)
Theorem preferences_well_formed db sid :
  let preferences := analyze_content_preferences db sid in
  NoDup (map fst preferences)
  /\ forall s v, In (s, v) preferences -> (0 < v <= 100)%Q.
Proof.
  cbv zeta. unfold analyze_content_preferences.
  fold (Spec.events_of db sid).
  destruct (Spec.events_of db sid) as [|e events] eqn:E.
  - split; [constructor|intros s v []].
  - set (total := List.length (e :: events)).
    destruct (fold_inv (e :: events) []) as [Hnd Hpos];
      [split; constructor|].
    pose proof (counted_fold (e :: events) []) as Hsum.
    change (counted []) with 0%nat in Hsum.
    pose proof (with_section_le (e :: events)) as Hle.
    set (d := fold_left count_section (e :: events) []) in *.
    assert (Htotal : (0 < Py.of_nat total)%Q) by (apply of_nat_pos; unfold total; simpl; lia).
    split.
    + rewrite map_map.
      erewrite map_ext; [exact Hnd|]. intros [k c]. reflexivity.
    + intros s v Hin. apply in_map_iff in Hin.
      destruct Hin as ([k c] & Ekv & Hin). inversion Ekv; subst s v. clear Ekv.
      assert (Hc : (0 < c)%nat).
      { rewrite Forall_forall in Hpos. apply (Hpos (k, c) Hin). }
      assert (Hc' : (c <= total)%nat).
      { apply In_le_counted in Hin. unfold total. lia. }
      assert (H0 : (0 < Py.of_nat c)%Q) by (apply of_nat_pos; exact Hc).
      assert (H1 : (Py.of_nat c <= Py.of_nat total)%Q).
      { unfold Py.of_nat. rewrite <- Zle_Qle. lia. }
      assert (Hq : (0 < Py.of_nat c / Py.of_nat total <= 1)%Q).
      { split.
        - apply Qlt_shift_div_l; [exact Htotal|]. lra.
        - apply Qle_shift_div_r; [exact Htotal|]. lra. }
      lra.
Qed.

Lemma fold_single_section s events :
  s <> ""%string ->
  Forall (fun e => content_section e = Some s) events ->
  forall n, fold_left count_section events [(s, n)]
            = [(s, (n + List.length events)%nat)].
Proof.
  intros Hs. induction 1 as [|e events He _ IH]; intros n; simpl.
  - rewrite Nat.add_0_r. reflexivity.
  - unfold count_section at 2. rewrite He, truthy_some.
    destruct (String.eqb_spec s ""); [contradiction|].
    cbn [negb]. cbv iota. unfold Py.incr. cbn [Py.update].
    rewrite String.eqb_refl, IH. do 2 f_equal. lia.
Qed.

Lemma preferences_well_formed_witness :
  In ("Market Analysis"%string, (100 # 2)%Q)
     (analyze_content_preferences db_open_and_click 1)
  /\ (0 < 100 # 2 <= 100)%Q.
Proof.
  assert (Hin : In ("Market Analysis"%string, (100 # 2)%Q)
                   (analyze_content_preferences db_open_and_click 1))
    by (left; reflexivity).
  split; [exact Hin|].
  apply (proj2 (preferences_well_formed db_open_and_click 1)
               "Market Analysis"%string (100 # 2)%Q Hin).
Defined.

(** X10.  When every event of the subscriber carries the same section, the
    preferences consist of that section alone, with the value 100. *)
Theorem single_section_preference db sid s :
  s <> ""%string ->
  Spec.events_of db sid <> [] ->
  Forall (fun e => content_section e = Some s) (Spec.events_of db sid) ->
  exists v, analyze_content_preferences db sid = [(s, v)] /\ (v == 100)%Q.
Proof.
  intros Hs Hne Hall. unfold analyze_content_preferences.
  fold (Spec.events_of db sid).
  destruct (Spec.events_of db sid) as [|e events] eqn:E; [congruence|].
  inversion Hall as [|? ? He Hall']; subst.
  cbn [fold_left]. unfold count_section at 2. rewrite He, truthy_some.
  destruct (String.eqb_spec s ""); [contradiction|]. simpl negb. cbv iota.
  unfold Py.incr. simpl Py.update.
  rewrite (fold_single_section s events Hs Hall').
  eexists. split; [reflexivity|].
  simpl List.length.
  assert (Hpos : (0 < Py.of_nat (S (List.length events)))%Q)
    by (apply of_nat_pos; lia).
  replace (1 + List.length events)%nat with (S (List.length events)) by lia.
  field. lra.
Qed.

Lemma single_section_preference_witness :
  exists v, analyze_content_preferences db_clicks_only 1
            = [("Market Analysis"%string, v)] /\ (v == 100)%Q.
Proof.
  apply (single_section_preference db_clicks_only 1 "Market Analysis").
  - discriminate.
  - discriminate.
  - repeat constructor.
Defined.

(* ===================================================================== *)
(** ** Segments: order of the labels, origin of the focus label           *)
(* ===================================================================== *)

Section SegmentShape.

Lemma Qltb_lt x y : Py.Qltb x y = true <-> (x < y)%Q.
Proof.
  unfold Py.Qltb. rewrite Qlt_alt. destruct (x ?= y)%Q; split; congruence.
Qed.

Lemma Qltb_ge x y : Py.Qltb x y = false -> (y <= x)%Q.
Proof.
  intros H. apply Qnot_lt_le. intros Hlt. apply Qltb_lt in Hlt. congruence.
Qed.

Lemma max_from_Q {A} (key : A -> Q) l : forall best,
  In (Py.max_from Py.Qltb key best l) (best :: l)
  /\ forall y, In y (best :: l) ->
               (key y <= key (Py.max_from Py.Qltb key best l))%Q.
Proof.
  induction l as [|x l IH]; intros best; simpl.
  - split; [left; reflexivity|]. intros y [<-|[]]. apply Qle_refl.
  - destruct (Py.Qltb (key best) (key x)) eqn:E.
    + destruct (IH x) as [Hin Hmax]. split; [right; exact Hin|].
      intros y [<-|Hy]; [|apply Hmax; exact Hy].
      apply Qltb_lt in E. apply Qle_trans with (key x); [lra|].
      apply Hmax. left. reflexivity.
    + destruct (IH best) as [Hin Hmax]. split.
      * destruct Hin as [Hin|Hin]; [left; exact Hin|right; right; exact Hin].
      * intros y [<-|[<-|Hy]].
        -- apply Hmax. left. reflexivity.
        -- apply Qltb_ge in E. apply Qle_trans with (key best); [exact E|].
           apply Hmax. left. reflexivity.
        -- apply Hmax. right. exact Hy.
Qed.

Lemma get_In_NoDup {V} (d : list (string * V)) k v :
  NoDup (map fst d) -> In (k, v) d -> Py.get String.eqb d k = Some v.
Proof.
  induction d as [|[k0 v0] d IH]; simpl; [tauto|].
  intros Hnd [E|Hin].
  - inversion E; subst. rewrite String.eqb_refl. reflexivity.
  - inversion Hnd as [|? ? Hk Hnd']; subst.
    destruct (String.eqb_spec k0 k) as [->|_].
    + exfalso. apply Hk. change k with (fst (k, v)). apply in_map. exact Hin.
    + apply IH; assumption.
Qed.

Lemma get_of_key {V} (d : list (string * V)) k :
  In k (map fst d) -> exists v, Py.get String.eqb d k = Some v.
Proof.
  induction d as [|[k0 v0] d IH]; simpl; [tauto|].
  intros [->|Hin].
  - rewrite String.eqb_refl. eexists. reflexivity.
  - destruct (String.eqb k0 k); [eexists; reflexivity|apply IH; exact Hin].
Qed.

(** The top preference is a section of highest value. *)
Lemma top_preference_max (prefs : list (string * Q)) top :
  NoDup (map fst prefs) ->
  top_preference_of prefs = Some top ->
  exists v, Py.get String.eqb prefs top = Some v
            /\ forall s' v', In (s', v') prefs -> (v' <= v)%Q.
Proof.
  intros Hnd Htop.
  assert (Hkeys : exists k ks,
             map fst prefs = k :: ks
             /\ Py.max_from Py.Qltb
                  (fun k => Py.get_default String.eqb prefs k 0%Q) k ks = top).
  { unfold top_preference_of, Py.max_by, Py.keys in Htop.
    destruct (map fst prefs) as [|k ks]; [discriminate|].
    injection Htop as Et. exists k, ks. auto. }
  destruct Hkeys as (k & ks & Ek & Et).
  destruct (max_from_Q (fun k => Py.get_default String.eqb prefs k 0%Q) ks k)
    as [Hin Hmax].
  rewrite Et in Hin, Hmax. rewrite <- Ek in Hin.
  destruct (get_of_key prefs top Hin) as (v & Hv).
  exists v. split; [exact Hv|].
  intros s' v' Hin'.
  assert (Hk : In s' (k :: ks)).
  { rewrite <- Ek. change s' with (fst (s', v')). apply in_map. exact Hin'. }
  specialize (Hmax s' Hk). unfold Py.get_default in Hmax.
  rewrite Hv in Hmax.
  rewrite (get_In_NoDup prefs s' v' Hnd Hin') in Hmax. exact Hmax.
Qed.

Lemma analyze_NoDup db sid :
  NoDup (map fst (analyze_content_preferences db sid)).
Proof.
  unfold analyze_content_preferences.
  destruct (filter _ (engagement_events db)) as [|e events]; [constructor|].
  destruct (fold_inv (e :: events) []) as [Hnd _]; [split; constructor|].
  rewrite map_map. erewrite map_ext; [exact Hnd|]. intros [k c]. reflexivity.
Qed.

End SegmentShape.

(** X11.  The segment list is the engagement label, then the churn label,
    then at most one content-focus label, and nothing else. *)
Theorem segments_shape db now sid :
  exists focus,
    determine_behavioral_segments db now sid
    = Spec.engagement_tier (calculate_engagement_score db now sid 30)
      :: Spec.churn_tier (predict_churn_risk db now sid) :: focus
    /\ (focus = [] \/ exists label, focus = [label] /\ In label Spec.focus_labels).
Proof.
  unfold determine_behavioral_segments, Spec.engagement_tier, Spec.churn_tier.
  rewrite <- !tier_code.
  destruct (Py.Qgeb (calculate_engagement_score db now sid 30) 70);
    [|destruct (Py.Qgeb (calculate_engagement_score db now sid 30) 40)];
  (destruct (Py.Qgeb (predict_churn_risk db now sid) 70);
    [|destruct (Py.Qgeb (predict_churn_risk db now sid) 40)]);
  (destruct (analyze_content_preferences db sid) as [|kv prefs];
    [|destruct (top_preference_of (kv :: prefs)) as [top|];
      [destruct (Py.contains "stock_analysis" (Py.lower top));
        [|destruct (Py.contains "market" (Py.lower top));
          [|destruct (Py.contains "news" (Py.lower top))]]|]]);
  cbn [app]; eexists; (split; [reflexivity|]);
  first [ left; reflexivity
        | right; eexists; split; [reflexivity|simpl; tauto] ].
Qed.

(** X12.  A content-focus label is only given on the strength of the top
    section: a section of highest preference value whose lower-cased name
    contains the keyword of the label ([stock_analysis], [market] or
    [news]). *)
Theorem focus_label_origin db now sid label :
  In label Spec.focus_labels ->
  In label (determine_behavioral_segments db now sid) ->
  let preferences := analyze_content_preferences db sid in
  exists section v,
    Py.get String.eqb preferences section = Some v
    /\ (forall s' v', In (s', v') preferences -> (v' <= v)%Q)
    /\ Py.contains (Facts.keyword label) (Py.lower section) = true.
Proof.
  intros Hlabel Hin. cbv zeta.
  pose proof (analyze_NoDup db sid) as Hnd.
  unfold determine_behavioral_segments in Hin.
  assert (Htop : exists top,
             top_preference_of (analyze_content_preferences db sid) = Some top
             /\ Py.contains (Facts.keyword label) (Py.lower top) = true).
  { destruct (Py.Qgeb (calculate_engagement_score db now sid 30) 70);
      [|destruct (Py.Qgeb (calculate_engagement_score db now sid 30) 40)];
    (destruct (Py.Qgeb (predict_churn_risk db now sid) 70);
      [|destruct (Py.Qgeb (predict_churn_risk db now sid) 40)]);
    (destruct (analyze_content_preferences db sid) as [|kv prefs];
      [|destruct (top_preference_of (kv :: prefs)) as [top|];
        [destruct (Py.contains "stock_analysis" (Py.lower top)) eqn:Es;
          [|destruct (Py.contains "market" (Py.lower top)) eqn:Em;
            [|destruct (Py.contains "news" (Py.lower top)) eqn:En]]|]]);
    cbn [app] in Hin; simpl in Hlabel, Hin;
    repeat match goal with
           | H : _ \/ _ |- _ => destruct H
           | H : False |- _ => destruct H
           end;
    subst; try discriminate;
    (exists top; split; [reflexivity|assumption]). }
  destruct Htop as (top & Htop & Hkw).
  destruct (top_preference_max _ top Hnd Htop) as (v & Hv & Hmax).
  exists top, v. auto.
Qed.

Lemma focus_label_origin_witness :
  In "market_focused"%string Spec.focus_labels
  /\ In "market_focused"%string (determine_behavioral_segments db_market_reader now_1000 1)
  /\ exists section v,
       Py.get String.eqb (analyze_content_preferences db_market_reader 1) section
       = Some v
       /\ Py.contains "market" (Py.lower section) = true.
Proof.
  assert (H1 : In "market_focused"%string Spec.focus_labels)
    by (simpl; tauto).
  assert (H2 : In "market_focused"%string
                  (determine_behavioral_segments db_market_reader now_1000 1))
    by (vm_compute; tauto).
  split; [exact H1|]. split; [exact H2|].
  destruct (focus_label_origin db_market_reader now_1000 1 _ H1 H2)
    as (section & v & Hv & _ & Hk).
  exists section, v. split; [exact Hv | exact Hk].
Defined.

(* ===================================================================== *)
(** ** A rebuild followed by personalization                              *)
(* ===================================================================== *)

Section AfterRebuild.

Lemma segments_mem db now sid :
  let segments := determine_behavioral_segments db now sid in
  let score := calculate_engagement_score db now sid 30 in
  let risk := predict_churn_risk db now sid in
  Py.mem "high_churn_risk" segments = Py.Qgeb risk 70
  /\ Py.mem "high_engagement" segments = Py.Qgeb score 70
  /\ Py.mem "low_engagement" segments
     = negb (Py.Qgeb score 70) && negb (Py.Qgeb score 40).
Proof.
  cbv zeta. unfold determine_behavioral_segments.
  destruct (Py.Qgeb (calculate_engagement_score db now sid 30) 70);
    [|destruct (Py.Qgeb (calculate_engagement_score db now sid 30) 40)];
  (destruct (Py.Qgeb (predict_churn_risk db now sid) 70);
    [|destruct (Py.Qgeb (predict_churn_risk db now sid) 40)]);
  (destruct (analyze_content_preferences db sid) as [|kv prefs];
    [|destruct (top_preference_of (kv :: prefs)) as [top|];
      [destruct (Py.contains "stock_analysis" (Py.lower top));
        [|destruct (Py.contains "market" (Py.lower top));
          [|destruct (Py.contains "news" (Py.lower top))]]|]]);
  repeat split; reflexivity.
Qed.



End AfterRebuild.



(** X15.  The dashboard files a rebuilt profile under the bucket of its
    churn label: the key of [churn_risk_distribution] chosen for its churn
    risk, followed by ["_churn_risk"], is one of its segments. *)
Theorem bucket_matches_churn_label db now sid :
  let profile := snd (update_subscriber_profile db now sid) in
  In (risk_bucket (churn_risk_score profile) ++ "_churn_risk")%string
     (behavioral_segments profile).
Proof.
  cbv zeta. rewrite update_shape. cbv zeta.
  cbn [snd churn_risk_score behavioral_segments].
  unfold risk_bucket, determine_behavioral_segments.
  destruct (Py.Qgeb (calculate_engagement_score db now sid 30) 70);
    [|destruct (Py.Qgeb (calculate_engagement_score db now sid 30) 40)];
  (destruct (Py.Qgeb (predict_churn_risk db now sid) 70);
    [|destruct (Py.Qgeb (predict_churn_risk db now sid) 40)]);
  (destruct (analyze_content_preferences db sid) as [|kv prefs];
    [|destruct (top_preference_of (kv :: prefs)) as [top|];
      [destruct (Py.contains "stock_analysis" (Py.lower top));
        [|destruct (Py.contains "market" (Py.lower top));
          [|destruct (Py.contains "news" (Py.lower top))]]|]]);
  simpl; tauto.
Qed.

(* ===================================================================== *)
(** ** Dashboard                                                          *)
(* ===================================================================== *)

Section DashboardCounts.

Lemma counted_fold_incr (l : list string) : forall d,
  counted (fold_left (Py.incr String.eqb) l d)
  = (List.length l + counted d)%nat.
Proof.
  induction l as [|x l IH]; intros d; simpl; [reflexivity|].
  rewrite IH, counted_incr. lia.
Qed.

Lemma risk_bucket_key score :
  existsb (String.eqb (risk_bucket score)) ["low"; "medium"; "high"]%string
  = true.
Proof.
  unfold risk_bucket.
  destruct (Py.Qgeb score 70); [|destruct (Py.Qgeb score 40)]; reflexivity.
Qed.

Lemma tally_fold db subs : forall sd cd,
  map fst cd = ["low"; "medium"; "high"]%string ->
  let result := fold_left (tally_subscriber db) subs (sd, cd) in
  map fst (snd result) = ["low"; "medium"; "high"]%string
  /\ counted (snd result)
     = (counted cd
        + List.length
            (filter (fun s => match get_profile db (id s) with
                              | Some _ => true
                              | None => false
                              end) subs))%nat
  /\ counted (fst result)
     = (counted sd
        + list_sum (map (fun s => List.length (Facts.segments_of db s)) subs))%nat.
Proof.
  induction subs as [|s subs IH]; intros sd cd Hkeys; cbv zeta.
  - simpl. repeat split; [exact Hkeys | lia | lia].
  - change (fold_left (tally_subscriber db) (s :: subs) (sd, cd))
      with (fold_left (tally_subscriber db) subs (tally_subscriber db (sd, cd) s)).
    assert (Estep : tally_subscriber db (sd, cd) s
                    = match get_profile db (id s) with
                      | Some p =>
                          (fold_left (Py.incr String.eqb) (behavioral_segments p) sd,
                           Py.incr String.eqb cd (risk_bucket (churn_risk_score p)))
                      | None => (sd, cd)
                      end) by reflexivity.
    rewrite Estep. clear Estep.
    cbn [filter map list_sum]. unfold Facts.segments_of at 1.
    destruct (get_profile db (id s)) as [p|].
    + specialize (IH (fold_left (Py.incr String.eqb) (behavioral_segments p) sd)
                     (Py.incr String.eqb cd (risk_bucket (churn_risk_score p)))).
      cbv zeta in IH.
      destruct IH as (Hk & Hc & Hs).
      { rewrite incr_keys, Hkeys, risk_bucket_key. reflexivity. }
      rewrite counted_incr in Hc. rewrite counted_fold_incr in Hs.
      split; [exact Hk|]. split.
      * etransitivity; [exact Hc|]. cbn [List.length]. lia.
      * etransitivity; [exact Hs|]. unfold list_sum. cbn [fold_right]. lia.
    + specialize (IH sd cd Hkeys). cbv zeta in IH.
      destruct IH as (Hk & Hc & Hs).
      split; [exact Hk|]. split.
      * etransitivity; [exact Hc|]. reflexivity.
      * etransitivity; [exact Hs|]. unfold list_sum. cbn [fold_right List.length]. lia.
Qed.

Lemma dashboard_tally db now days :
  churn_risk_distribution (get_dashboard_analytics db now days)
  = snd (fold_left (tally_subscriber db) (subscribers db)
                   ([], [("low", 0); ("medium", 0); ("high", 0)]%string%nat))
  /\ segments (get_dashboard_analytics db now days)
     = fst (fold_left (tally_subscriber db) (subscribers db)
                      ([], [("low", 0); ("medium", 0); ("high", 0)]%string%nat)).
Proof.
  unfold get_dashboard_analytics.
  destruct (fold_left (tally_subscriber db) (subscribers db) _) as [sd cd].
  split; reflexivity.
Qed.

Lemma between_split db ty a b c :
  a <= b -> b <= c ->
  List.length (Facts.between db ty a c)
  = (List.length (Facts.between db ty a b)
     + List.length (Facts.between db ty b c))%nat.
Proof.
  intros Hab Hbc. unfold Facts.between.
  induction (engagement_events db) as [|e events IH]; [reflexivity|].
  cbn [filter]. destruct (String.eqb (event_type e) ty); cbn [andb]; [|exact IH].
  destruct (Z.leb_spec a (timestamp e)), (Z.leb_spec b (timestamp e)),
           (Z.ltb_spec (timestamp e) b), (Z.ltb_spec (timestamp e) c);
    cbn [andb List.length]; try lia.
Qed.

Lemma day_count_between db ty now i :
  day_count db ty (now - Py.timedelta (i + 1))
            (now - Py.timedelta (i + 1) + Py.timedelta 1)
  = List.length (Facts.between db ty (now - (i + 1) * Py.usec_per_day)
                               (now - i * Py.usec_per_day)).
Proof.
  unfold day_count, Facts.between, is_type, Py.timedelta.
  replace (now - (i + 1) * Py.usec_per_day + 1 * Py.usec_per_day)
    with (now - i * Py.usec_per_day) by ring.
  reflexivity.
Qed.

(** The seven day windows tile the week before [now]. *)
Lemma week_count db ty now :
  list_sum (week_counts db ty now)
  = List.length (Facts.between db ty (now - 7 * Py.usec_per_day) now).
Proof.
  unfold week_counts. cbn [map].
  rewrite !day_count_between.
  change (6 + 1) with 7. change (5 + 1) with 6. change (4 + 1) with 5.
  change (3 + 1) with 4. change (2 + 1) with 3. change (1 + 1) with 2.
  change (0 + 1) with 1.
  replace (now - 0 * Py.usec_per_day) with now by (unfold Py.datetime in *; ring).
  assert (HD : 0 < Py.usec_per_day) by reflexivity.
  pose proof (between_split db ty (now - 7 * Py.usec_per_day)
                (now - 6 * Py.usec_per_day) now).
  pose proof (between_split db ty (now - 6 * Py.usec_per_day)
                (now - 5 * Py.usec_per_day) now).
  pose proof (between_split db ty (now - 5 * Py.usec_per_day)
                (now - 4 * Py.usec_per_day) now).
  pose proof (between_split db ty (now - 4 * Py.usec_per_day)
                (now - 3 * Py.usec_per_day) now).
  pose proof (between_split db ty (now - 3 * Py.usec_per_day)
                (now - 2 * Py.usec_per_day) now).
  pose proof (between_split db ty (now - 2 * Py.usec_per_day)
                (now - 1 * Py.usec_per_day) now).
  unfold list_sum. cbn [fold_right]. lia.
Qed.

Lemma dashboard_trends db now days :
  map opens (daily_trends (get_dashboard_analytics db now days))
  = week_counts db "email_open" now
  /\ map clicks (daily_trends (get_dashboard_analytics db now days))
     = week_counts db "link_click" now.
Proof.
  unfold get_dashboard_analytics.
  destruct (fold_left (tally_subscriber db) (subscribers db) _) as [sd cd].
  cbn [daily_trends]. split; reflexivity.
Qed.

End DashboardCounts.

(** X16.  In the dashboard the three buckets [low], [medium] and [high] of
    [churn_risk_distribution] add up to the number of registered
    subscribers that have a profile, and the segment counts add up to the
    number of segment labels those profiles carry. *)
Theorem dashboard_distribution db now days :
  let dashboard := get_dashboard_analytics db now days in
  map fst (churn_risk_distribution dashboard) = ["low"; "medium"; "high"]%string
  /\ counted (churn_risk_distribution dashboard)
     = List.length (Facts.profiled db)
  /\ counted (segments dashboard)
     = list_sum (map (fun s => List.length (Facts.segments_of db s))
                     (subscribers db)).
Proof.
  cbv zeta. destruct (dashboard_tally db now days) as [-> ->].
  destruct (tally_fold db (subscribers db) []
              [("low", 0); ("medium", 0); ("high", 0)]%string%nat eq_refl)
    as (Hk & Hc & Hs).
  split; [exact Hk|]. split.
  - etransitivity; [exact Hc|]. reflexivity.
  - etransitivity; [exact Hs|]. reflexivity.
Qed.

(** X17.  The dashboard reports seven days, and their opens and clicks add
    up to the opens and clicks stamped in the seven days before the call:
    the day windows neither overlap nor leave a gap. *)
Theorem dashboard_week db now days :
  let dashboard := get_dashboard_analytics db now days in
  List.length (daily_trends dashboard) = 7%nat
  /\ list_sum (map opens (daily_trends dashboard))
     = List.length (Facts.between db "email_open"
                                  (now - 7 * Py.usec_per_day) now)
  /\ list_sum (map clicks (daily_trends dashboard))
     = List.length (Facts.between db "link_click"
                                  (now - 7 * Py.usec_per_day) now).
Proof.
  cbv zeta. destruct (dashboard_trends db now days) as [Ho Hc].
  split.
  - rewrite <- (length_map opens), Ho. reflexivity.
  - rewrite Ho, Hc, !week_count. split; reflexivity.
Qed.

Lemma dashboard_total db now days :
  total_events (get_dashboard_analytics db now days)
  = List.length (filter (fun e => now - Py.timedelta days <=? timestamp e)
                        (engagement_events db)).
Proof.
  unfold get_dashboard_analytics.
  destruct (fold_left (tally_subscriber db) (subscribers db) _) as [sd cd].
  reflexivity.
Qed.

Lemma week_within_window db now days :
  7 <= days ->
  (List.length (Facts.between db "email_open" (now - 7 * Py.usec_per_day)%Z now)
   + List.length (Facts.between db "link_click" (now - 7 * Py.usec_per_day)%Z now)
   <= List.length (filter (fun e => (now - Py.timedelta days <=? timestamp e)%Z)
                          (engagement_events db)))%nat.
Proof.
  intros Hdays. unfold Facts.between, Py.timedelta.
  assert (HD : 0 < Py.usec_per_day) by reflexivity.
  induction (engagement_events db) as [|e events IH]; [simpl; lia|].
  cbn [filter].
  destruct (String.eqb_spec (event_type e) "email_open") as [Eo|_];
  destruct (String.eqb_spec (event_type e) "link_click") as [Ec|_];
    try (rewrite Eo in Ec; discriminate);
  destruct (Z.leb_spec (now - 7 * Py.usec_per_day) (timestamp e));
  destruct (Z.ltb_spec (timestamp e) now);
  destruct (Z.leb_spec (now - days * Py.usec_per_day) (timestamp e));
  cbn [andb List.length]; try lia; nia.
Qed.

(** X18.  For a window of at least 7 days the opens and clicks of the seven
    daily rows together never exceed [total_events]. *)
Theorem dashboard_week_within_total db now days :
  7 <= days ->
  let dashboard := get_dashboard_analytics db now days in
  (list_sum (map opens (daily_trends dashboard))
   + list_sum (map clicks (daily_trends dashboard))
   <= total_events dashboard)%nat.
Proof.
  intros Hdays. cbv zeta.
  destruct (dashboard_trends db now days) as [Ho Hc].
  rewrite Ho, Hc, !week_count, dashboard_total.
  apply week_within_window. exact Hdays.
Qed.

Lemma dashboard_week_within_total_witness :
  7 <= 30
  /\ (list_sum (map opens (daily_trends
                   (get_dashboard_analytics db_two_opens now_1000 30)))
      + list_sum (map clicks (daily_trends
                     (get_dashboard_analytics db_two_opens now_1000 30)))
      <= total_events (get_dashboard_analytics db_two_opens now_1000 30))%nat.
Proof.
  assert (H : 7 <= 30) by lia.
  split; [exact H|].
  apply (dashboard_week_within_total db_two_opens now_1000 30 H).
Defined.

(* ===================================================================== *)
(** ** The route handlers                                                 *)
(* ===================================================================== *)

Section Handlers.

Lemma upsert_In row table p :
  In p (upsert row table) -> p = row \/ In p table.
Proof.
  induction table as [|q table IH]; simpl.
  - intros [<-|[]]. left. reflexivity.
  - destruct (subscriber_id q =? subscriber_id row); simpl.
    + intros [<-|H]; auto.
    + intros [<-|H]; auto. destruct (IH H); auto.
Qed.

(** A rebuild for a registered subscriber leaves every profile row with a
    registered subscriber, whatever events were added before it. *)
Lemma rebuild_referential db events now sid :
  get_subscriber db sid <> None ->
  Facts.referential db ->
  Facts.referential
    (fst (PersonalizationService.update_subscriber_profile
            {| subscribers := subscribers db;
               engagement_events := events;
               subscriber_profiles := subscriber_profiles db |} now sid)).
Proof.
  intros Hsub Href. unfold Facts.referential.
  rewrite update_shape. cbv zeta. cbn [fst subscriber_profiles].
  intros p Hp. apply upsert_In in Hp.
  unfold get_subscriber. cbn [subscribers]. fold (get_subscriber db (subscriber_id p)).
  destruct Hp as [->|Hp]; [exact Hsub|].
  apply Href. exact Hp.
Qed.

End Handlers.

(** X19.  Through the handlers [POST /events] and [PUT
    /subscribers/<id>/profile] a profile row is only ever written for a
    registered subscriber: if every profile row belongs to a registered
    subscriber before the request, so it does after it. *)
Theorem handlers_keep_profiles_registered db now data sid :
  Facts.referential db ->
  Facts.referential (snd (Routes.create_engagement_event db now data))
  /\ Facts.referential (snd (Routes.update_subscriber_profile db now sid)).
Proof.
  intros Href. split.
  - unfold Routes.create_engagement_event.
    destruct (Routes.rq_subscriber_id data) as [sid'|]; [|exact Href].
    destruct (Routes.rq_event_type data) as [ty|]; [|exact Href].
    destruct (Routes.rq_platform_id data) as [platform|]; [|exact Href].
    destruct (get_subscriber db sid') as [sub|] eqn:Hsub; [|exact Href].
    pose proof (rebuild_referential db
                  (engagement_events db
                   ++ [{| ev_subscriber_id := sid'; event_type := ty;
                          content_section := Routes.rq_content_section data;
                          timestamp := now |}]) now sid') as H.
    destruct (PersonalizationService.update_subscriber_profile _ now sid')
      as [db' profile].
    cbn [fst snd] in *. apply H; [congruence|exact Href].
  - unfold Routes.update_subscriber_profile.
    destruct (get_subscriber db sid) as [sub|] eqn:Hsub; [|exact Href].
    pose proof (rebuild_referential db (engagement_events db) now sid) as H.
    assert (Edb : {| subscribers := subscribers db;
                     engagement_events := engagement_events db;
                     subscriber_profiles := subscriber_profiles db |} = db)
      by (destruct db; reflexivity).
    rewrite Edb in H.
    destruct (PersonalizationService.update_subscriber_profile db now sid)
      as [db' profile].
    cbn [fst snd] in *. apply H; [congruence|exact Href].
Qed.

Lemma handlers_keep_profiles_registered_witness :
  Facts.referential db_newcomer
  /\ Facts.referential
       (snd (Routes.create_engagement_event db_newcomer now_1000 (open_request 2)))
  /\ fst (Routes.create_engagement_event db_newcomer now_1000 (open_request 7))
     = 404.
Proof.
  assert (H : Facts.referential db_newcomer) by (intros p []).
  split; [exact H|]. split; [|reflexivity].
  apply (handlers_keep_profiles_registered db_newcomer now_1000
           (open_request 2) 2 H).
Defined.

Section RecordedEvent.

Lemma count_app ty l1 l2 :
  Spec.count ty (l1 ++ l2) = (Spec.count ty l1 + Spec.count ty l2)%nat.
Proof.
  induction l1 as [|e l1 IH]; simpl; [reflexivity|].
  destruct (String.eqb (event_type e) ty); simpl; rewrite IH; reflexivity.
Qed.

Lemma open_now_counted db now sid section :
  let event := {| ev_subscriber_id := sid; event_type := "email_open";
                  content_section := section; timestamp := now |} in
  let db1 := {| subscribers := subscribers db;
                engagement_events := engagement_events db ++ [event];
                subscriber_profiles := subscriber_profiles db |} in
  (1 <= Spec.count "email_open" (Spec.since db1 now sid 30))%nat.
Proof.
  cbv zeta. unfold Spec.since. cbn [engagement_events].
  rewrite filter_app, count_app. cbn [filter ev_subscriber_id timestamp].
  rewrite Z.eqb_refl.
  assert (E : (now - 30 * Py.usec_per_day <=? now) = true).
  { apply Z.leb_le. assert (0 < Py.usec_per_day) by reflexivity. lia. }
  rewrite E. simpl. lia.
Qed.

Lemma one_open_scores o c v :
  (1 <= o)%nat -> (1 <= score_of_counts o c v 30)%Q.
Proof.
  intros Ho. unfold score_of_counts. simpl (Z.min 30 30 =? 0). cbv iota.
  unfold Spec.engagement_formula. cbv zeta. simpl (Z.min 30 30).
  assert (Ht : 0 < 30) by lia.
  pose proof (rate_mono 1 o 30 Ht Ho) as Hr.
  assert (E1 : (Spec.rate 1 30 == 1 # 30)%Q) by reflexivity.
  pose proof (rate_nonneg c 30 Ht). pose proof (rate_nonneg v 30 Ht).
  apply Q.min_glb; [|lra].
  destruct o as [|o']; [lia|]. cbv iota. change (Z.min 30 30) with 30. lra.
Qed.

End RecordedEvent.

(** X20.  [POST /events] with an [email_open] for a registered subscriber
    answers 201, appends the event stamped with the instant of the call and
    leaves a profile for the subscriber that is rebuilt at that instant
    and whose engagement score is at least 1. *)
Theorem recorded_open_is_scored db now data sid subscriber platform :
  Routes.rq_subscriber_id data = Some sid ->
  Routes.rq_event_type data = Some "email_open"%string ->
  Routes.rq_platform_id data = Some platform ->
  get_subscriber db sid = Some subscriber ->
  let status := fst (Routes.create_engagement_event db now data) in
  let db' := snd (Routes.create_engagement_event db now data) in
  status = 201
  /\ engagement_events db'
     = engagement_events db
       ++ [{| ev_subscriber_id := sid; event_type := "email_open";
              content_section := Routes.rq_content_section data;
              timestamp := now |}]
  /\ exists profile,
       get_profile db' sid = Some profile
       /\ last_updated profile = Some now
       /\ (1 <= engagement_score profile)%Q.
Proof.
  intros Hsid Hty Hplatform Hsub. cbv zeta.
  unfold Routes.create_engagement_event.
  rewrite Hsid, Hty, Hplatform, Hsub.
  set (event := {| ev_subscriber_id := sid; event_type := "email_open";
                   content_section := Routes.rq_content_section data;
                   timestamp := now |}).
  set (db1 := {| subscribers := subscribers db;
                 engagement_events := engagement_events db ++ [event];
                 subscriber_profiles := subscriber_profiles db |}).
  pose proof (rebuilt_stored db1 now sid) as Hstored.
  pose proof (update_shape db1 now sid) as Hshape. cbv zeta in Hshape.
  destruct (PersonalizationService.update_subscriber_profile db1 now sid)
    as [db' profile].
  cbn [fst snd] in *.
  split; [reflexivity|]. split.
  - injection Hshape as -> _. reflexivity.
  - exists profile. split; [exact Hstored|].
    injection Hshape as _ ->. cbn [last_updated engagement_score].
    split; [reflexivity|].
    pose proof (score_since db1 now sid 30) as E. cbv zeta in E. rewrite E.
    apply one_open_scores.
    apply (open_now_counted db now sid (Routes.rq_content_section data)).
Qed.

Lemma recorded_open_is_scored_witness :
  get_subscriber db_newcomer 2 = Some newcomer
  /\ fst (Routes.create_engagement_event db_newcomer now_1000 (open_request 2))
     = 201.
Proof.
  assert (H : get_subscriber db_newcomer 2 = Some newcomer) by reflexivity.
  split; [exact H|].
  apply (recorded_open_is_scored db_newcomer now_1000 (open_request 2) 2
           newcomer "mailchimp" eq_refl eq_refl eq_refl H).
Defined.

(* ===================================================================== *)
(** ** Send time advice of the advanced service                           *)
(* ===================================================================== *)

Section SendTimeAdvice.

Import AdvancedPersonalizationService.

Lemma fold_incr_map {A} (f : A -> Z) (l : list A) : forall d,
  fold_left (fun d x => Py.incr Z.eqb d (f x)) l d
  = fold_left (Py.incr Z.eqb) (map f l) d.
Proof.
  induction l as [|x l IH]; intros d; simpl; [reflexivity|apply IH].
Qed.

Lemma get_default_of_key (f : Z -> nat) ks k :
  In k ks ->
  Py.get_default Z.eqb (map (fun k => (k, f k)) ks) k 0%nat = f k.
Proof.
  unfold Py.get_default. induction ks as [|k0 ks IH]; simpl; [tauto|].
  intros Hin. destruct (Z.eqb_spec k0 k) as [->|Hne]; [reflexivity|].
  apply IH. destruct Hin; [contradiction|assumption].
Qed.

Lemma max_from_ext {A K} (ltb : K -> K -> bool) (key1 key2 : A -> K) l :
  forall best,
    (forall x, In x (best :: l) -> key1 x = key2 x) ->
    Py.max_from ltb key1 best l = Py.max_from ltb key2 best l.
Proof.
  induction l as [|x l IH]; intros best H; simpl; [reflexivity|].
  rewrite (H best (or_introl eq_refl)), (H x (or_intror (or_introl eq_refl))).
  apply IH. intros y [<-|Hy].
  - destruct (ltb (key2 best) (key2 x)); apply H; simpl; auto.
  - apply H. simpl. auto.
Qed.

(** [max(d, key=d.get)] and [d.most_common(1)] pick the same key of a
    counter. *)
Lemma peak_Counter l : peak (Py.Counter Z.eqb l) = most_common_hour l.
Proof.
  unfold peak, most_common_hour, Py.most_common_1, Py.keys.
  rewrite Counter_first_seen, map_map. cbn [fst]. rewrite map_id.
  destruct (first_seen l) as [|k ks] eqn:E; [reflexivity|].
  cbn [map]. unfold Py.max_by.
  rewrite (max_from_map Nat.ltb snd (fun k => (k, Spec.occ l k)) ks k).
  cbn [snd]. f_equal. apply max_from_ext.
  intros x Hx. exact (get_default_of_key (Spec.occ l) (k :: ks) x Hx).
Qed.

Lemma most_common_hour_some h l : exists r, most_common_hour (h :: l) = Some r.
Proof.
  rewrite most_common_hour_first.
  destruct (first_most_frequent_some h l) as (r & Hr & _).
  exists r. exact Hr.
Qed.

Lemma recent_is_all db now sid :
  Forall (fun e => now - 30 * Py.usec_per_day <= timestamp e)
         (Facts.opens_of db sid) ->
  Spec.recent_opens db now sid = Facts.opens_of db sid.
Proof.
  unfold Spec.recent_opens, Facts.opens_of. intros Hall.
  rewrite Forall_forall in Hall.
  apply filter_ext_in. intros e He.
  destruct ((ev_subscriber_id e =? sid)
            && String.eqb (event_type e) "email_open") eqn:E; [|reflexivity].
  cbn [andb]. apply Z.leb_le. apply Hall. apply filter_In. auto.
Qed.

End SendTimeAdvice.

(** X21.  When all opens of a subscriber are at most 30 days old, the send
    time that [optimize_send_time] recommends is the one a rebuild stores
    in the profile: both take the first most frequent hour of the opens,
    and "09:00" when there is none. *)
Theorem send_time_advice_agrees db now sid :
  Forall (fun e => now - 30 * Py.usec_per_day <= timestamp e)
         (Facts.opens_of db sid) ->
  Some (AdvancedPersonalizationService.recommended_time
          (AdvancedPersonalizationService.optimize_send_time db sid))
  = optimal_send_time (snd (update_subscriber_profile db now sid)).
Proof.
  intros Hall. rewrite update_shape. cbv zeta. cbn [snd optimal_send_time].
  f_equal. unfold compute_optimal_send_time.
  rewrite recent_opens_fetch, (recent_is_all db now sid Hall).
  unfold AdvancedPersonalizationService.optimize_send_time.
  change (filter (fun e => (ev_subscriber_id e =? sid) && is_type "email_open" e)
                 (engagement_events db)) with (Facts.opens_of db sid).
  destruct (Facts.opens_of db sid) as [|e opens]; [reflexivity|].
  rewrite (fold_incr_map (fun x => Py.hour (timestamp x)) (e :: opens)).
  rewrite (fold_incr_map (fun x => Py.weekday (timestamp x)) (e :: opens)).
  change (fold_left (Py.incr Z.eqb) (map (fun x => Py.hour (timestamp x)) (e :: opens)) [])
    with (Py.Counter Z.eqb (map (fun x => Py.hour (timestamp x)) (e :: opens))).
  change (fold_left (Py.incr Z.eqb) (map (fun x => Py.weekday (timestamp x)) (e :: opens)) [])
    with (Py.Counter Z.eqb (map (fun x => Py.weekday (timestamp x)) (e :: opens))).
  rewrite !peak_Counter.
  destruct (most_common_hour_some (Py.hour (timestamp e))
              (map (fun x => Py.hour (timestamp x)) opens)) as (h & Hh).
  destruct (most_common_hour_some (Py.weekday (timestamp e))
              (map (fun x => Py.weekday (timestamp x)) opens)) as (d & Hd).
  cbn [map] in *. rewrite Hh, Hd. reflexivity.
Qed.

Lemma send_time_advice_agrees_witness :
  Some (AdvancedPersonalizationService.recommended_time
          (AdvancedPersonalizationService.optimize_send_time db_opens_10_then_8 1))
  = Some "10:00"%string.
Proof.
  assert (H : Forall (fun e => now_1000 - 30 * Py.usec_per_day <= timestamp e)
                     (Facts.opens_of db_opens_10_then_8 1)).
  { repeat constructor; vm_compute; discriminate. }
  rewrite (send_time_advice_agrees db_opens_10_then_8 now_1000 1 H).
  reflexivity.
Defined.

(* ===================================================================== *)
(** ** Preferences as shares of all events                                *)
(* ===================================================================== *)

Section Shares.

Lemma counted_list_sum (d : list (string * nat)) :
  counted d = list_sum (map snd d).
Proof.
  induction d as [|[k c] d IH]; simpl; [reflexivity|].
  rewrite IH. reflexivity.
Qed.

(** The counter of a section is the number of events that carry it. *)
Lemma fold_counts events k c :
  In (k, c) (fold_left count_section events []) ->
  c = Facts.in_section k events /\ (0 < c)%nat.
Proof.
  intros Hin.
  destruct (fold_inv events []) as [Hnd _]; [split; constructor|].
  pose proof (get_In_NoDup _ k c Hnd Hin) as Hget.
  rewrite get_fold in Hget.
  destruct (Facts.in_section k events) as [|n]; [discriminate|].
  injection Hget as <-. simpl. split; [reflexivity|lia].
Qed.

Lemma filter_length_all {A} (p : A -> bool) l :
  List.length (filter p l) = List.length l <-> Forall (fun x => p x = true) l.
Proof.
  induction l as [|x l IH]; simpl.
  - split; [constructor|reflexivity].
  - pose proof (filter_length_le p l) as Hle.
    destruct (p x) eqn:E; simpl.
    + split.
      * intros H. constructor; [exact E|]. apply IH. lia.
      * intros H. inversion H; subst. f_equal. apply IH. assumption.
    + split; [lia|]. intros H. inversion H; subst. congruence.
Qed.

End Shares.

(** C4 (amended).  For a subscriber with at least one event, every value of
    the mapping is [(count / total) * 100] with [count] the number of the
    subscriber's events that carry the section, at least one, and [total]
    the number of all the subscriber's events, with or without a section.
    The counts of the sections add up to the number of events that carry a
    section, which is [total] exactly when every event carries one: only
    then do the shares cover the whole. *)
Theorem preferences_shares db sid :
  let events := Spec.events_of db sid in
  let preferences := analyze_content_preferences db sid in
  events <> [] ->
  (forall s v, In (s, v) preferences ->
     (0 < Facts.in_section s events)%nat
     /\ v = (Py.of_nat (Facts.in_section s events)
             / Py.of_nat (List.length events) * 100)%Q)
  /\ list_sum (map (fun kv => Facts.in_section (fst kv) events) preferences)
     = Spec.with_section events
  /\ (Spec.with_section events <= List.length events)%nat
  /\ (Spec.with_section events = List.length events
      <-> Forall (fun e => Py.truthy (content_section e) = true) events).
Proof.
  cbv zeta. intros Hne. unfold analyze_content_preferences.
  fold (Spec.events_of db sid).
  destruct (Spec.events_of db sid) as [|e events] eqn:E; [congruence|].
  set (all := e :: events) in *.
  set (d := fold_left count_section all []).
  split; [|split; [|split]].
  - intros s v Hin. apply in_map_iff in Hin.
    destruct Hin as ([k c] & Ekv & Hin). inversion Ekv; subst s v. clear Ekv.
    destruct (fold_counts all k c Hin) as [Hc Hpos]. rewrite <- Hc. auto.
  - rewrite map_map.
    transitivity (list_sum (map snd d)).
    + f_equal. apply map_ext_in. intros [k c] Hin. simpl.
      destruct (fold_counts all k c Hin) as [Hc _]. symmetry. exact Hc.
    + rewrite <- counted_list_sum. unfold d. rewrite counted_fold.
      simpl counted. lia.
  - apply with_section_le.
  - unfold Spec.with_section. apply filter_length_all.
Qed.

Lemma preferences_shares_witness :
  Spec.events_of db_two_clicks 1 <> []
  /\ list_sum (map (fun kv => Facts.in_section
                                (fst kv) (Spec.events_of db_two_clicks 1))
                   (analyze_content_preferences db_two_clicks 1))
     = 2%nat
  /\ List.length (Spec.events_of db_two_clicks 1) = 2%nat.
Proof.
  assert (Hne : Spec.events_of db_two_clicks 1 <> []) by discriminate.
  split; [exact Hne|]. split; [|reflexivity].
  destruct (preferences_shares db_two_clicks 1 Hne) as (_ & Hsum & _).
  rewrite Hsum. reflexivity.
Defined.

(* ===================================================================== *)
(** ** Subject line and content order: missing rows, prefixes             *)
(* ===================================================================== *)

Section SubjectRules.

Lemma append_assoc (a b c : string) :
  ((a ++ b) ++ c)%string = (a ++ b ++ c)%string.
Proof.
  induction a as [|ch a IH]; simpl; [reflexivity|].
  rewrite IH. reflexivity.
Qed.

Lemma mem_In x l : Py.mem x l = true <-> In x l.
Proof.
  unfold Py.mem. rewrite existsb_exists. split.
  - intros (y & Hy & E). apply String.eqb_eq in E. congruence.
  - intros H. exists x. split; [exact H|apply String.eqb_refl].
Qed.

Lemma prefix_app s1 : forall s2,
  String.prefix s1 s2 = true <-> exists rest, s2 = (s1 ++ rest)%string.
Proof.
  induction s1 as [|a s1 IH]; intros s2.
  - split; [intros _; exists s2; reflexivity|].
    intros _. destruct s2; reflexivity.
  - destruct s2 as [|b s2]; simpl.
    + split; [discriminate|]. intros (rest & E). discriminate.
    + destruct (ascii_dec a b) as [->|Hne].
      * rewrite IH. split; intros (rest & E); exists rest.
        -- rewrite E. reflexivity.
        -- injection E as E. exact E.
      * split; [discriminate|]. intros (rest & E). injection E as E1 _.
        congruence.
Qed.

Lemma contains_step needle hay :
  Py.contains needle hay
  = if String.prefix needle hay then true
    else match hay with
         | EmptyString => false
         | String _ hay' => Py.contains needle hay'
         end.
Proof. destruct hay; reflexivity. Qed.

Lemma contains_occurs needle hay :
  Py.contains needle hay = true <-> Spec.occurs_in needle hay.
Proof.
  unfold Spec.occurs_in. split.
  - induction hay as [|c hay IH]; rewrite contains_step.
    + destruct (String.prefix needle "") eqn:E; [|discriminate].
      intros _. apply prefix_app in E. destruct E as (rest & E).
      exists ""%string, rest. exact E.
    + destruct (String.prefix needle (String c hay)) eqn:E.
      * intros _. apply prefix_app in E. destruct E as (rest & E).
        exists ""%string, rest. exact E.
      * intros H. destruct (IH H) as (before & after & E').
        exists (String c before), after. rewrite E'. reflexivity.
  - intros (before & after & E). subst hay.
    induction before as [|c before IH]; rewrite contains_step.
    + assert (Hp : String.prefix needle (needle ++ after) = true)
        by (apply prefix_app; exists after; reflexivity).
      change ("" ++ needle ++ after)%string with (needle ++ after)%string.
      rewrite Hp. reflexivity.
    + change (String c before ++ needle ++ after)%string
        with (String c (before ++ needle ++ after)).
      cbv beta iota. rewrite IH. destruct (String.prefix needle _); reflexivity.
Qed.

Lemma stock_rule_code segments lowered :
  Py.mem "stock_focused" segments && Py.contains "stock" lowered = true
  <-> Spec.stock_rule segments lowered.
Proof.
  unfold Spec.stock_rule. rewrite andb_true_iff, mem_In, contains_occurs.
  reflexivity.
Qed.

Lemma market_rule_code segments lowered :
  Py.mem "market_focused" segments && Py.contains "market" lowered = true
  <-> Spec.market_rule segments lowered.
Proof.
  unfold Spec.market_rule. rewrite andb_true_iff, mem_In, contains_occurs.
  reflexivity.
Qed.

Lemma mem_dec x l :
  Py.mem x l = if in_dec string_dec x l then true else false.
Proof.
  destruct (in_dec string_dec x l) as [H|H].
  - apply mem_In. exact H.
  - destruct (Py.mem x l) eqn:E; [|reflexivity].
    apply mem_In in E. contradiction.
Qed.

(** The three stages of the function, for a subscriber with a profile. *)
Lemma subject_code lower db sid subscriber profile summary base :
  get_subscriber db sid = Some subscriber ->
  get_profile db sid = Some profile ->
  let segments := behavioral_segments profile in
  generate_personalized_subject_line lower db sid summary base
  = ((if Py.mem "high_churn_risk" segments then "Don't Miss: " else "")
     ++ (if Py.mem "stock_focused" segments
            && Py.contains "stock" (lower summary)
         then Spec.stock_text
         else if Py.mem "market_focused" segments
                 && Py.contains "market" (lower summary)
         then Spec.market_text
         else if Py.mem "high_engagement" segments
         then Spec.high_engagement_text
         else if Py.mem "low_engagement" segments then "Quick Read: "
         else "")
     ++ base)%string.
Proof.
  intros Hsub Hprofile. cbv zeta.
  unfold generate_personalized_subject_line. rewrite Hsub, Hprofile.
  destruct (Py.mem "stock_focused" (behavioral_segments profile)
            && Py.contains "stock" (lower summary));
    [|destruct (Py.mem "market_focused" (behavioral_segments profile)
                && Py.contains "market" (lower summary))];
  destruct (Py.mem "high_churn_risk" (behavioral_segments profile));
  try reflexivity;
  (destruct (Py.mem "high_engagement" (behavioral_segments profile));
    [|destruct (Py.mem "low_engagement" (behavioral_segments profile))]);
  reflexivity.
Qed.

Lemma urgency_text_code segments :
  (if Py.mem "high_churn_risk" segments then "Don't Miss: " else "")%string
  = Spec.urgency_text segments.
Proof.
  unfold Spec.urgency_text. rewrite mem_dec.
  destruct (in_dec string_dec "high_churn_risk"%string segments); reflexivity.
Qed.

Lemma engagement_text_code segments :
  (if Py.mem "high_engagement" segments then Spec.high_engagement_text
   else if Py.mem "low_engagement" segments then "Quick Read: " else "")%string
  = Spec.engagement_text segments.
Proof.
  unfold Spec.engagement_text. rewrite !mem_dec.
  destruct (in_dec string_dec "high_engagement"%string segments);
  destruct (in_dec string_dec "low_engagement"%string segments); reflexivity.
Qed.

End SubjectRules.

(** C9 (as stated, refuted).  Id 7 is not in the registry, but a profile
    row with preferences is stored under it: the content order consults the
    profile table only and puts the preferred sections first. *)
Lemma order_for_unregistered_id_with_profile :
  get_subscriber db_orphan_profile 7 = None
  /\ map title (personalize_content_order db_orphan_profile 7 newsletter)
     = ["d"; "b"; "a"; "c"]%string
  /\ personalize_content_order db_orphan_profile 7 newsletter <> newsletter.
Proof.
  split; [reflexivity|]. split; [reflexivity|].
  intros E. apply (f_equal (map title)) in E. vm_compute in E. discriminate.
Qed.

(** C9 (amended).  For an id that the database can bind (a signed 64-bit
    integer): the subject line is the base subject when the id is not in
    the registry or no profile is stored for it, and the items come back in
    their input order when no profile is stored for it.  The content order
    does not look at the registry. *)
Theorem personalization_without_profile lower db sid summary base items :
  Facts.sqlite_integer sid ->
  (get_subscriber db sid = None \/ get_profile db sid = None ->
   generate_personalized_subject_line lower db sid summary base = base)
  /\ (get_profile db sid = None ->
      personalize_content_order db sid items = items)
  /\ (forall registry,
        personalize_content_order
          {| subscribers := registry;
             engagement_events := engagement_events db;
             subscriber_profiles := subscriber_profiles db |} sid items
        = personalize_content_order db sid items).
Proof.
  intros _.
  unfold generate_personalized_subject_line, personalize_content_order.
  split; [|split].
  - intros [H|H]; rewrite H; [|destruct (get_subscriber db sid)]; reflexivity.
  - intros H. rewrite H. reflexivity.
  - intros registry. reflexivity.
Qed.

Lemma personalization_without_profile_witness :
  Facts.sqlite_integer 1
  /\ get_profile db_dormant 1 = None
  /\ generate_personalized_subject_line Py.lower db_dormant 1
       "Top stock picks" "Daily brief"
     = "Daily brief"%string
  /\ personalize_content_order db_dormant 1 newsletter = newsletter.
Proof.
  assert (Hid : Facts.sqlite_integer 1) by (unfold Facts.sqlite_integer; lia).
  assert (H : get_profile db_dormant 1 = None) by reflexivity.
  split; [exact Hid|]. split; [exact H|].
  destruct (personalization_without_profile Py.lower db_dormant 1
              "Top stock picks" "Daily brief" newsletter Hid) as (Hs & Ho & _).
  split; [apply Hs; right; exact H | apply Ho; exact H].
Defined.

(** C10.  For a subscriber with a stored profile: when the stock rule
    triggers ([stock_focused] among the segments and ["stock"] in the
    lower-cased summary) the subject is the stock text followed by the base
    subject, and likewise for the market rule when the stock rule does not
    trigger; the text of the engagement tier is then gone.  When neither
    triggers, the subject is the engagement text followed by the base
    subject.  "Don't Miss: " comes in front of whichever of these it is
    exactly when [high_churn_risk] is among the segments.  Whatever the
    rows stored for the id, the subject ends with the base subject. *)
Theorem subject_line_prefixes lower db sid summary base :
  let subject := generate_personalized_subject_line lower db sid summary base in
  (forall subscriber profile,
     get_subscriber db sid = Some subscriber ->
     get_profile db sid = Some profile ->
     let segments := behavioral_segments profile in
     let stock := Spec.stock_rule segments (lower summary) in
     let market := Spec.market_rule segments (lower summary) in
     (stock ->
      subject = (Spec.urgency_text segments ++ Spec.stock_text ++ base)%string)
     /\ (~ stock -> market ->
         subject
         = (Spec.urgency_text segments ++ Spec.market_text ++ base)%string)
     /\ (~ stock -> ~ market ->
         subject
         = (Spec.urgency_text segments ++ Spec.engagement_text segments
            ++ base)%string))
  /\ Spec.ends_with subject base.
Proof.
  cbv zeta. split.
  - intros subscriber profile Hsub Hprofile.
    pose proof (subject_code lower db sid subscriber profile summary base
                  Hsub Hprofile) as E. cbv zeta in E.
    pose proof (stock_rule_code (behavioral_segments profile) (lower summary))
      as Hstock.
    pose proof (market_rule_code (behavioral_segments profile) (lower summary))
      as Hmarket.
    rewrite urgency_text_code in E.
    destruct (Py.mem "stock_focused" (behavioral_segments profile)
              && Py.contains "stock" (lower summary)) eqn:Es.
    + assert (Hs : Spec.stock_rule (behavioral_segments profile)
                                   (lower summary))
        by (apply Hstock; reflexivity).
      repeat split; try (intros; contradiction). intros _. exact E.
    + assert (Hs : ~ Spec.stock_rule (behavioral_segments profile)
                                     (lower summary))
        by (intros H; apply Hstock in H; discriminate).
      destruct (Py.mem "market_focused" (behavioral_segments profile)
                && Py.contains "market" (lower summary)) eqn:Em.
      * assert (Hm : Spec.market_rule (behavioral_segments profile)
                                      (lower summary))
          by (apply Hmarket; reflexivity).
        repeat split; try (intros; contradiction). intros _ _. exact E.
      * assert (Hm : ~ Spec.market_rule (behavioral_segments profile)
                                        (lower summary))
          by (intros H; apply Hmarket in H; discriminate).
        rewrite engagement_text_code in E.
        repeat split; try (intros; contradiction). intros _ _. exact E.
  - destruct (get_subscriber db sid) as [subscriber|] eqn:Hsub;
      [destruct (get_profile db sid) as [profile|] eqn:Hprofile|].
    + rewrite (subject_code lower db sid subscriber profile summary base
                 Hsub Hprofile).
      cbv zeta. eexists. rewrite <- !append_assoc. reflexivity.
    + unfold generate_personalized_subject_line. rewrite Hsub, Hprofile.
      exists ""%string. reflexivity.
    + unfold generate_personalized_subject_line. rewrite Hsub.
      exists ""%string. reflexivity.
Qed.

Lemma subject_line_prefixes_witness :
  get_subscriber db_stock_fan 1 = Some {| id := 1; signup_date := 0 |}
  /\ get_profile db_stock_fan 1 = Some profile_stock_fan
  /\ Spec.stock_rule (behavioral_segments profile_stock_fan)
                     (Py.lower "Top STOCK picks")
  /\ generate_personalized_subject_line Py.lower db_stock_fan 1
       "Top STOCK picks" "Daily brief"
     = "Don't Miss: ðŸ“ˆ Stock Alert: Daily brief"%string.
Proof.
  assert (H1 : get_subscriber db_stock_fan 1 = Some {| id := 1; signup_date := 0 |})
    by reflexivity.
  assert (H2 : get_profile db_stock_fan 1 = Some profile_stock_fan)
    by reflexivity.
  assert (H3 : Spec.stock_rule (behavioral_segments profile_stock_fan)
                               (Py.lower "Top STOCK picks")).
  { split; [simpl; tauto|]. exists "top "%string, " picks"%string. reflexivity. }
  split; [exact H1|]. split; [exact H2|]. split; [exact H3|].
  destruct (subject_line_prefixes Py.lower db_stock_fan 1
              "Top STOCK picks" "Daily brief") as (Hrules & _).
  destruct (Hrules _ profile_stock_fan H1 H2) as (Hs & _).
  rewrite (Hs H3). reflexivity.
Defined.

Section SubjectAfterRebuild.

Lemma tone_code score :
  (if Py.Qgeb score 70 then Spec.high_engagement_text
   else if negb (Py.Qgeb score 70) && negb (Py.Qgeb score 40)
        then "Quick Read: " else "")%string
  = Facts.tone score.
Proof.
  unfold Facts.tone.
  destruct (Qlt_le_dec score 40) as [H40|H40];
    [|destruct (Qlt_le_dec score 70) as [H70|H70]].
  - assert (E40 : Py.Qgeb score 40 = false) by (apply Qgeb_false; exact H40).
    assert (E70 : Py.Qgeb score 70 = false) by (apply Qgeb_false; lra).
    rewrite E40, E70. reflexivity.
  - assert (E40 : Py.Qgeb score 40 = true) by (apply Qgeb_true; exact H40).
    assert (E70 : Py.Qgeb score 70 = false) by (apply Qgeb_false; exact H70).
    rewrite E40, E70. reflexivity.
  - assert (E70 : Py.Qgeb score 70 = true) by (apply Qgeb_true; exact H70).
    rewrite E70. reflexivity.
Qed.

Lemma urgency_code risk :
  (if Py.Qgeb risk 70 then "Don't Miss: " else "")%string = Facts.urgency risk.
Proof.
  unfold Facts.urgency. destruct (Qlt_le_dec risk 70) as [H|H].
  - assert (E : Py.Qgeb risk 70 = false) by (apply Qgeb_false; exact H).
    rewrite E. reflexivity.
  - assert (E : Py.Qgeb risk 70 = true) by (apply Qgeb_true; exact H).
    rewrite E. reflexivity.
Qed.

End SubjectAfterRebuild.

(** X13.  After a rebuild the subject line of a registered subscriber
    starts with "Don't Miss: " exactly when the churn risk is at least 70;
    behind it comes the stock text when the stock rule triggers on the
    rebuilt segments and the summary, else the market text when the market
    rule does, else the text of the engagement score (the urgent one from
    70, "Quick Read: " below 40, none between); the base subject ends it. *)
Theorem subject_after_rebuild lower db now sid subscriber summary base :
  get_subscriber db sid = Some subscriber ->
  let db' := fst (update_subscriber_profile db now sid) in
  let segments := determine_behavioral_segments db now sid in
  let subject := generate_personalized_subject_line lower db' sid summary base in
  let urgency := Facts.urgency (predict_churn_risk db now sid) in
  let stock := Spec.stock_rule segments (lower summary) in
  let market := Spec.market_rule segments (lower summary) in
  (stock -> subject = (urgency ++ Spec.stock_text ++ base)%string)
  /\ (~ stock -> market ->
      subject = (urgency ++ Spec.market_text ++ base)%string)
  /\ (~ stock -> ~ market ->
      subject = (urgency
                 ++ Facts.tone (calculate_engagement_score db now sid 30)
                 ++ base)%string).
Proof.
  intros Hsub. cbv zeta.
  assert (Hsub' : get_subscriber (fst (update_subscriber_profile db now sid)) sid
                  = Some subscriber).
  { rewrite update_shape. exact Hsub. }
  pose proof (subject_code lower _ sid subscriber _ summary base
                Hsub' (rebuilt_stored db now sid)) as E.
  cbv zeta in E. rewrite update_shape in E. cbv zeta in E.
  cbn [fst snd behavioral_segments] in E.
  destruct (segments_mem db now sid) as (Hc & Hh & Hl). cbv zeta in Hc, Hh, Hl.
  rewrite Hc, Hh, Hl, urgency_code in E.
  pose proof (stock_rule_code (determine_behavioral_segments db now sid)
                              (lower summary)) as Hstock.
  pose proof (market_rule_code (determine_behavioral_segments db now sid)
                               (lower summary)) as Hmarket.
  rewrite update_shape. cbv zeta. cbn [fst].
  destruct (Py.mem "stock_focused" (determine_behavioral_segments db now sid)
            && Py.contains "stock" (lower summary)) eqn:Es.
  - assert (Hs : Spec.stock_rule (determine_behavioral_segments db now sid)
                                 (lower summary))
      by (apply Hstock; reflexivity).
    repeat split; try (intros; contradiction). intros _. exact E.
  - assert (Hs : ~ Spec.stock_rule (determine_behavioral_segments db now sid)
                                   (lower summary))
      by (intros H; apply Hstock in H; discriminate).
    destruct (Py.mem "market_focused" (determine_behavioral_segments db now sid)
              && Py.contains "market" (lower summary)) eqn:Em.
    + assert (Hm : Spec.market_rule (determine_behavioral_segments db now sid)
                                    (lower summary))
        by (apply Hmarket; reflexivity).
      repeat split; try (intros; contradiction). intros _ _. exact E.
    + assert (Hm : ~ Spec.market_rule (determine_behavioral_segments db now sid)
                                      (lower summary))
        by (intros H; apply Hmarket in H; discriminate).
      assert (Et := tone_code (calculate_engagement_score db now sid 30)).
      destruct (Py.Qgeb (calculate_engagement_score db now sid 30) 70);
        rewrite <- Et;
        (repeat split; try (intros; contradiction); intros _ _; exact E).
Qed.

Lemma subject_after_rebuild_witness :
  get_subscriber db_newcomer 2 = Some newcomer
  /\ generate_personalized_subject_line Py.lower
       (fst (update_subscriber_profile db_newcomer now_1000 2)) 2
       "Top stock picks" "Daily brief"
     = "Don't Miss: Quick Read: Daily brief"%string.
Proof.
  assert (H : get_subscriber db_newcomer 2 = Some newcomer) by reflexivity.
  split; [exact H|].
  destruct (subject_after_rebuild Py.lower db_newcomer now_1000 2 newcomer
              "Top stock picks" "Daily brief" H) as (_ & _ & Hnone).
  rewrite Hnone; [reflexivity | |].
  - intros [Hin _]. vm_compute in Hin. intuition discriminate.
  - intros [Hin _]. vm_compute in Hin. intuition discriminate.
Defined.
